(** * PiJuice firmware: the non-volatile store's header (nv.h) and the
      cooperative service loop (osloop.c)

    A shallow embedding of the two sources and the properties of the
    design document that can be settled on them.

    Conventions.  A C integer of width w is a [Z] in [0, 2^w); every
    conversion and every operation that can leave that range has its
    wrap-around written out ([uint16_t], [uint32_t], [not32]).  The
    peripheral modules the loop calls (adc.c, iodrv.c, analog.c, i2cdrv.c,
    hostcomms.c, led.c) and the HAL are not part of the two sources: they
    are the fields of the class [Platform]. *)

From Stdlib Require Import ZArith Lia List Bool.
From stdpp Require Import base numbers option list.

Local Open Scope Z_scope.

(* ====================================================================== *)
(** * nv.h *)
(* ====================================================================== *)

Module Nv.

(** [(uint16_t) x]: conversion to a 16-bit unsigned integer. *)
Definition uint16_t (x : Z) : Z := x mod 2 ^ 16.

(** [#define NV_INVALID_VARIABLE ((uint16_t)0x000f)] *)
Definition NV_INVALID_VARIABLE : Z := uint16_t 0x000f.

(** [#define NV_READ_VARIABLE_SUCCESS ((uint16_t)0)] *)
Definition NV_READ_VARIABLE_SUCCESS : Z := uint16_t 0.

(** [#define NV_VARIABLE_NON_STORED ((uint16_t)0xffffffff)] *)
Definition NV_VARIABLE_NON_STORED : Z := uint16_t 0xffffffff.

(** [#define NV_IS_DATA_INITIALIZED (nvInitFlag != 0Xffff)]; the flag the
    macro captures is its argument here. *)
Definition NV_IS_DATA_INITIALIZED (nvInitFlag : Z) : bool :=
  negb (nvInitFlag =? 0xffff).

(** [#define NV_IS_VARIABLE_VALID(var) (((~var)&0xFF) == (var>>8))].
    [var] is a [uint16_t] object: it is promoted to [int] before [~] and
    [>>], so [~var] is the two's-complement [Z.lnot] and no bit above the
    sixteenth enters [var>>8]. *)
Definition NV_IS_VARIABLE_VALID (var : Z) : bool :=
  Z.land (Z.lnot var) 0xFF =? Z.shiftr var 8.

(** The two bytes of a 16-bit record, as the macro reads them. *)
Definition payload_of (record : Z) : Z := Z.land record 0xFF.
Definition checksum_of (record : Z) : Z := Z.shiftr record 8.

(** [complement8 b]: the bitwise complement of a byte, kept to 8 bits. *)
Definition complement8 (b : Z) : Z := Z.land (Z.lnot b) 0xFF.

Inductive DecodeError : Type := Invalid.

Inductive Result (A E : Type) : Type :=
| Ok (a : A)
| Err (e : E).
Arguments Ok {A E} a.
Arguments Err {A E} e.

(** Modelled from the spec: the codec's [encode], whose C code (nv.c) is not
    among the sources.  "sets checksum = complement(payload)"; the checksum
    is the high byte and the payload the low byte, the layout
    [NV_IS_VARIABLE_VALID] checks. *)
Definition encode (payload : Z) : Z :=
  Z.lor payload (Z.shiftl (complement8 payload) 8).

(** Modelled from the spec: the codec's [decode], whose C code (nv.c) is not
    among the sources.  "recomputes expected checksum; returns the payload
    if it matches, else signals Invalid"; the check is the header's macro. *)
Definition decode (record : Z) : Result Z DecodeError :=
  if NV_IS_VARIABLE_VALID record then Ok (payload_of record) else Err Invalid.

(** ** The variable catalogue

    [typedef enum { NV_VAR_LIST, NV_VAR_NUM } NvVarId_T;] *)

Inductive NvVarId_T : Type :=
| NV_STATIC_START_ID
| NV_STATIC_ADDR_RESERVED0
| VDG_ILOAD_CALIB_KTA_NV_ADDR
| VDG_ILOAD_CALIB_KTB_NV_ADDR
| RES_ILOAD_CALIB_ZERO_NV_ADDR
| NV_STATIC_ADDR_RESERVED1
| NV_STATIC_ADDR_RESERVED2
| NV_STATIC_ADDR_RESERVED3
| NV_STATIC_ADDR_RESERVED4
| NV_STATIC_ADDR_RESERVED5
| NV_STATIC_ADDR_RESERVED6
| NV_STATIC_ADDR_RESERVED7
| NV_STATIC_ADDR_RESERVED8
| NV_STATIC_ADDR_RESERVED9
| NV_STATIC_ADDR_RESERVED10
| NV_STATIC_ADDR_RESERVED11
| NV_STATIC_ADDR_RESERVED12
| NV_START_ID
| NV_ADDR_RESERVED0
| BAT_PROFILE_NV_ADDR
| BAT_CAPACITY_NV_ADDR
| CHARGE_CURRENT_NV_ADDR
| CHARGE_TERM_CURRENT_NV_ADDR
| BAT_REG_VOLTAGE_NV_ADDR
| BAT_CUTOFF_VOLTAGE_NV_ADDR
| BAT_TEMP_COLD_NV_ADDR
| BAT_TEMP_COOL_NV_ADDR
| BAT_TEMP_WARM_NV_ADDR
| BAT_TEMP_HOT_NV_ADDR
| BAT_NTC_B_NV_ADDR
| BAT_NTC_RESISTANCE_NV_ADDR
| BAT_NTC_CRC_NV_ADDR
| FUEL_GAUGE_CONFIG_NV_ADDR
| CHARGING_CONFIG_NV_ADDR
| CHARGER_INPUTS_CONFIG_NV_ADDR
| WATCHDOG_CONFIGL_NV_ADDR
| NV_ADDR_RESERVED5
| BUTTON_PRESS_FUNC_SW1
| BUTTON_PRESS_CONFIG_SW1
| BUTTON_RELEASE_FUNC_SW1
| BUTTON_RELEASE_CONFIG_SW1
| BUTTON_SINGLE_PRESS_FUNC_SW1
| BUTTON_SINGLE_PRESS_CONFIG_SW1
| BUTTON_DOUBLE_PRESS_FUNC_SW1
| BUTTON_DOUBLE_PRESS_CONFIG_SW1
| BUTTON_LONG_PRESS1_FUNC_SW1
| BUTTON_LONG_PRESS1_CONFIG_SW1
| BUTTON_LONG_PRESS2_FUNC_SW1
| BUTTON_LONG_PRESS2_CONFIG_SW1
| WAKEUPONCHARGE_CONFIG_NV_ADDR
| BUTTON_PRESS_FUNC_SW2
| BUTTON_PRESS_CONFIG_SW2
| BUTTON_RELEASE_FUNC_SW2
| BUTTON_RELEASE_CONFIG_SW2
| BUTTON_SINGLE_PRESS_FUNC_SW2
| BUTTON_SINGLE_PRESS_CONFIG_SW2
| BUTTON_DOUBLE_PRESS_FUNC_SW2
| BUTTON_DOUBLE_PRESS_CONFIG_SW2
| BUTTON_LONG_PRESS1_FUNC_SW2
| BUTTON_LONG_PRESS1_CONFIG_SW2
| BUTTON_LONG_PRESS2_FUNC_SW2
| BUTTON_LONG_PRESS2_CONFIG_SW2
| NV_ADDR_RESERVED7
| BUTTON_PRESS_FUNC_SW3
| BUTTON_PRESS_CONFIG_SW3
| BUTTON_RELEASE_FUNC_SW3
| BUTTON_RELEASE_CONFIG_SW3
| BUTTON_SINGLE_PRESS_FUNC_SW3
| BUTTON_SINGLE_PRESS_CONFIG_SW3
| BUTTON_DOUBLE_PRESS_FUNC_SW3
| BUTTON_DOUBLE_PRESS_CONFIG_SW3
| BUTTON_LONG_PRESS1_FUNC_SW3
| BUTTON_LONG_PRESS1_CONFIG_SW3
| BUTTON_LONG_PRESS2_FUNC_SW3
| BUTTON_LONG_PRESS2_CONFIG_SW3
| NV_ADDR_RESERVED8
| NV_LED_FUNC_1
| NV_LED_PARAM_R_1
| NV_LED_PARAM_G_1
| NV_LED_PARAM_B_1
| NV_LED_FUNC_2
| NV_LED_PARAM_R_2
| NV_LED_PARAM_G_2
| NV_LED_PARAM_B_2
| NV_ADDR_RESERVED9
| NV_ADDR_RESERVED10
| POWER_REGULATOR_CONFIG_NV_ADDR
| NV_RUN_PIN_CONFIG
| NV_ADDR_RESERVED11
| OWN_ADDRESS1_NV_ADDR
| OWN_ADDRESS2_NV_ADDR
| ID_EEPROM_ADR_NV_ADDR
| NV_ADDR_RESERVED12
| IO_CONFIG1_NV_ADDR
| IO_CONFIG1_PARAM1_NV_ADDR
| IO_CONFIG1_PARAM2_NV_ADDR
| IO_CONFIG2_NV_ADDR
| IO_CONFIG2_PARAM1_NV_ADDR
| IO_CONFIG2_PARAM2_NV_ADDR
| NV_ADDR_RESERVED13
| BAT_CHEMISTRY_NV_ADDR
| BAT_OCV10L_NV_ADDR
| BAT_OCV10H_NV_ADDR
| BAT_OCV50L_NV_ADDR
| BAT_OCV50H_NV_ADDR
| BAT_OCV90L_NV_ADDR
| BAT_OCV90H_NV_ADDR
| BAT_R10L_NV_ADDR
| BAT_R10H_NV_ADDR
| BAT_R50L_NV_ADDR
| BAT_R50H_NV_ADDR
| BAT_R90L_NV_ADDR
| BAT_R90H_NV_ADDR
| WATCHDOG_CONFIGH_NV_ADDR
| ISENSE_RES_SPAN_L
| ISENSE_RES_SPAN_H
| NV_VAR_NUM.

(** [#define NV_VAR_LIST ...]: the enumerators in the order the macro lists
    them. *)
Definition NV_VAR_LIST : list NvVarId_T :=
  [ NV_STATIC_START_ID;
    NV_STATIC_ADDR_RESERVED0;
    VDG_ILOAD_CALIB_KTA_NV_ADDR;
    VDG_ILOAD_CALIB_KTB_NV_ADDR;
    RES_ILOAD_CALIB_ZERO_NV_ADDR;
    NV_STATIC_ADDR_RESERVED1;
    NV_STATIC_ADDR_RESERVED2;
    NV_STATIC_ADDR_RESERVED3;
    NV_STATIC_ADDR_RESERVED4;
    NV_STATIC_ADDR_RESERVED5;
    NV_STATIC_ADDR_RESERVED6;
    NV_STATIC_ADDR_RESERVED7;
    NV_STATIC_ADDR_RESERVED8;
    NV_STATIC_ADDR_RESERVED9;
    NV_STATIC_ADDR_RESERVED10;
    NV_STATIC_ADDR_RESERVED11;
    NV_STATIC_ADDR_RESERVED12;
    NV_START_ID;
    NV_ADDR_RESERVED0;
    BAT_PROFILE_NV_ADDR;
    BAT_CAPACITY_NV_ADDR;
    CHARGE_CURRENT_NV_ADDR;
    CHARGE_TERM_CURRENT_NV_ADDR;
    BAT_REG_VOLTAGE_NV_ADDR;
    BAT_CUTOFF_VOLTAGE_NV_ADDR;
    BAT_TEMP_COLD_NV_ADDR;
    BAT_TEMP_COOL_NV_ADDR;
    BAT_TEMP_WARM_NV_ADDR;
    BAT_TEMP_HOT_NV_ADDR;
    BAT_NTC_B_NV_ADDR;
    BAT_NTC_RESISTANCE_NV_ADDR;
    BAT_NTC_CRC_NV_ADDR;
    FUEL_GAUGE_CONFIG_NV_ADDR;
    CHARGING_CONFIG_NV_ADDR;
    CHARGER_INPUTS_CONFIG_NV_ADDR;
    WATCHDOG_CONFIGL_NV_ADDR;
    NV_ADDR_RESERVED5;
    BUTTON_PRESS_FUNC_SW1;
    BUTTON_PRESS_CONFIG_SW1;
    BUTTON_RELEASE_FUNC_SW1;
    BUTTON_RELEASE_CONFIG_SW1;
    BUTTON_SINGLE_PRESS_FUNC_SW1;
    BUTTON_SINGLE_PRESS_CONFIG_SW1;
    BUTTON_DOUBLE_PRESS_FUNC_SW1;
    BUTTON_DOUBLE_PRESS_CONFIG_SW1;
    BUTTON_LONG_PRESS1_FUNC_SW1;
    BUTTON_LONG_PRESS1_CONFIG_SW1;
    BUTTON_LONG_PRESS2_FUNC_SW1;
    BUTTON_LONG_PRESS2_CONFIG_SW1;
    WAKEUPONCHARGE_CONFIG_NV_ADDR;
    BUTTON_PRESS_FUNC_SW2;
    BUTTON_PRESS_CONFIG_SW2;
    BUTTON_RELEASE_FUNC_SW2;
    BUTTON_RELEASE_CONFIG_SW2;
    BUTTON_SINGLE_PRESS_FUNC_SW2;
    BUTTON_SINGLE_PRESS_CONFIG_SW2;
    BUTTON_DOUBLE_PRESS_FUNC_SW2;
    BUTTON_DOUBLE_PRESS_CONFIG_SW2;
    BUTTON_LONG_PRESS1_FUNC_SW2;
    BUTTON_LONG_PRESS1_CONFIG_SW2;
    BUTTON_LONG_PRESS2_FUNC_SW2;
    BUTTON_LONG_PRESS2_CONFIG_SW2;
    NV_ADDR_RESERVED7;
    BUTTON_PRESS_FUNC_SW3;
    BUTTON_PRESS_CONFIG_SW3;
    BUTTON_RELEASE_FUNC_SW3;
    BUTTON_RELEASE_CONFIG_SW3;
    BUTTON_SINGLE_PRESS_FUNC_SW3;
    BUTTON_SINGLE_PRESS_CONFIG_SW3;
    BUTTON_DOUBLE_PRESS_FUNC_SW3;
    BUTTON_DOUBLE_PRESS_CONFIG_SW3;
    BUTTON_LONG_PRESS1_FUNC_SW3;
    BUTTON_LONG_PRESS1_CONFIG_SW3;
    BUTTON_LONG_PRESS2_FUNC_SW3;
    BUTTON_LONG_PRESS2_CONFIG_SW3;
    NV_ADDR_RESERVED8;
    NV_LED_FUNC_1;
    NV_LED_PARAM_R_1;
    NV_LED_PARAM_G_1;
    NV_LED_PARAM_B_1;
    NV_LED_FUNC_2;
    NV_LED_PARAM_R_2;
    NV_LED_PARAM_G_2;
    NV_LED_PARAM_B_2;
    NV_ADDR_RESERVED9;
    NV_ADDR_RESERVED10;
    POWER_REGULATOR_CONFIG_NV_ADDR;
    NV_RUN_PIN_CONFIG;
    NV_ADDR_RESERVED11;
    OWN_ADDRESS1_NV_ADDR;
    OWN_ADDRESS2_NV_ADDR;
    ID_EEPROM_ADR_NV_ADDR;
    NV_ADDR_RESERVED12;
    IO_CONFIG1_NV_ADDR;
    IO_CONFIG1_PARAM1_NV_ADDR;
    IO_CONFIG1_PARAM2_NV_ADDR;
    IO_CONFIG2_NV_ADDR;
    IO_CONFIG2_PARAM1_NV_ADDR;
    IO_CONFIG2_PARAM2_NV_ADDR;
    NV_ADDR_RESERVED13;
    BAT_CHEMISTRY_NV_ADDR;
    BAT_OCV10L_NV_ADDR;
    BAT_OCV10H_NV_ADDR;
    BAT_OCV50L_NV_ADDR;
    BAT_OCV50H_NV_ADDR;
    BAT_OCV90L_NV_ADDR;
    BAT_OCV90H_NV_ADDR;
    BAT_R10L_NV_ADDR;
    BAT_R10H_NV_ADDR;
    BAT_R50L_NV_ADDR;
    BAT_R50H_NV_ADDR;
    BAT_R90L_NV_ADDR;
    BAT_R90H_NV_ADDR;
    WATCHDOG_CONFIGH_NV_ADDR;
    ISENSE_RES_SPAN_L;
    ISENSE_RES_SPAN_H ].

(** The body of the enum: the list, then [NV_VAR_NUM]. *)
Definition NvVarId_T_enumerators : list NvVarId_T := NV_VAR_LIST ++ [NV_VAR_NUM].

(** The integer the C compiler gives each enumerator: no enumerator has an
    initialiser, so the first is 0 and each other is its predecessor plus
    one. *)
Definition NvVarId_T_value (id : NvVarId_T) : Z :=
  match id with
  | NV_STATIC_START_ID => 0
  | NV_STATIC_ADDR_RESERVED0 => 1
  | VDG_ILOAD_CALIB_KTA_NV_ADDR => 2
  | VDG_ILOAD_CALIB_KTB_NV_ADDR => 3
  | RES_ILOAD_CALIB_ZERO_NV_ADDR => 4
  | NV_STATIC_ADDR_RESERVED1 => 5
  | NV_STATIC_ADDR_RESERVED2 => 6
  | NV_STATIC_ADDR_RESERVED3 => 7
  | NV_STATIC_ADDR_RESERVED4 => 8
  | NV_STATIC_ADDR_RESERVED5 => 9
  | NV_STATIC_ADDR_RESERVED6 => 10
  | NV_STATIC_ADDR_RESERVED7 => 11
  | NV_STATIC_ADDR_RESERVED8 => 12
  | NV_STATIC_ADDR_RESERVED9 => 13
  | NV_STATIC_ADDR_RESERVED10 => 14
  | NV_STATIC_ADDR_RESERVED11 => 15
  | NV_STATIC_ADDR_RESERVED12 => 16
  | NV_START_ID => 17
  | NV_ADDR_RESERVED0 => 18
  | BAT_PROFILE_NV_ADDR => 19
  | BAT_CAPACITY_NV_ADDR => 20
  | CHARGE_CURRENT_NV_ADDR => 21
  | CHARGE_TERM_CURRENT_NV_ADDR => 22
  | BAT_REG_VOLTAGE_NV_ADDR => 23
  | BAT_CUTOFF_VOLTAGE_NV_ADDR => 24
  | BAT_TEMP_COLD_NV_ADDR => 25
  | BAT_TEMP_COOL_NV_ADDR => 26
  | BAT_TEMP_WARM_NV_ADDR => 27
  | BAT_TEMP_HOT_NV_ADDR => 28
  | BAT_NTC_B_NV_ADDR => 29
  | BAT_NTC_RESISTANCE_NV_ADDR => 30
  | BAT_NTC_CRC_NV_ADDR => 31
  | FUEL_GAUGE_CONFIG_NV_ADDR => 32
  | CHARGING_CONFIG_NV_ADDR => 33
  | CHARGER_INPUTS_CONFIG_NV_ADDR => 34
  | WATCHDOG_CONFIGL_NV_ADDR => 35
  | NV_ADDR_RESERVED5 => 36
  | BUTTON_PRESS_FUNC_SW1 => 37
  | BUTTON_PRESS_CONFIG_SW1 => 38
  | BUTTON_RELEASE_FUNC_SW1 => 39
  | BUTTON_RELEASE_CONFIG_SW1 => 40
  | BUTTON_SINGLE_PRESS_FUNC_SW1 => 41
  | BUTTON_SINGLE_PRESS_CONFIG_SW1 => 42
  | BUTTON_DOUBLE_PRESS_FUNC_SW1 => 43
  | BUTTON_DOUBLE_PRESS_CONFIG_SW1 => 44
  | BUTTON_LONG_PRESS1_FUNC_SW1 => 45
  | BUTTON_LONG_PRESS1_CONFIG_SW1 => 46
  | BUTTON_LONG_PRESS2_FUNC_SW1 => 47
  | BUTTON_LONG_PRESS2_CONFIG_SW1 => 48
  | WAKEUPONCHARGE_CONFIG_NV_ADDR => 49
  | BUTTON_PRESS_FUNC_SW2 => 50
  | BUTTON_PRESS_CONFIG_SW2 => 51
  | BUTTON_RELEASE_FUNC_SW2 => 52
  | BUTTON_RELEASE_CONFIG_SW2 => 53
  | BUTTON_SINGLE_PRESS_FUNC_SW2 => 54
  | BUTTON_SINGLE_PRESS_CONFIG_SW2 => 55
  | BUTTON_DOUBLE_PRESS_FUNC_SW2 => 56
  | BUTTON_DOUBLE_PRESS_CONFIG_SW2 => 57
  | BUTTON_LONG_PRESS1_FUNC_SW2 => 58
  | BUTTON_LONG_PRESS1_CONFIG_SW2 => 59
  | BUTTON_LONG_PRESS2_FUNC_SW2 => 60
  | BUTTON_LONG_PRESS2_CONFIG_SW2 => 61
  | NV_ADDR_RESERVED7 => 62
  | BUTTON_PRESS_FUNC_SW3 => 63
  | BUTTON_PRESS_CONFIG_SW3 => 64
  | BUTTON_RELEASE_FUNC_SW3 => 65
  | BUTTON_RELEASE_CONFIG_SW3 => 66
  | BUTTON_SINGLE_PRESS_FUNC_SW3 => 67
  | BUTTON_SINGLE_PRESS_CONFIG_SW3 => 68
  | BUTTON_DOUBLE_PRESS_FUNC_SW3 => 69
  | BUTTON_DOUBLE_PRESS_CONFIG_SW3 => 70
  | BUTTON_LONG_PRESS1_FUNC_SW3 => 71
  | BUTTON_LONG_PRESS1_CONFIG_SW3 => 72
  | BUTTON_LONG_PRESS2_FUNC_SW3 => 73
  | BUTTON_LONG_PRESS2_CONFIG_SW3 => 74
  | NV_ADDR_RESERVED8 => 75
  | NV_LED_FUNC_1 => 76
  | NV_LED_PARAM_R_1 => 77
  | NV_LED_PARAM_G_1 => 78
  | NV_LED_PARAM_B_1 => 79
  | NV_LED_FUNC_2 => 80
  | NV_LED_PARAM_R_2 => 81
  | NV_LED_PARAM_G_2 => 82
  | NV_LED_PARAM_B_2 => 83
  | NV_ADDR_RESERVED9 => 84
  | NV_ADDR_RESERVED10 => 85
  | POWER_REGULATOR_CONFIG_NV_ADDR => 86
  | NV_RUN_PIN_CONFIG => 87
  | NV_ADDR_RESERVED11 => 88
  | OWN_ADDRESS1_NV_ADDR => 89
  | OWN_ADDRESS2_NV_ADDR => 90
  | ID_EEPROM_ADR_NV_ADDR => 91
  | NV_ADDR_RESERVED12 => 92
  | IO_CONFIG1_NV_ADDR => 93
  | IO_CONFIG1_PARAM1_NV_ADDR => 94
  | IO_CONFIG1_PARAM2_NV_ADDR => 95
  | IO_CONFIG2_NV_ADDR => 96
  | IO_CONFIG2_PARAM1_NV_ADDR => 97
  | IO_CONFIG2_PARAM2_NV_ADDR => 98
  | NV_ADDR_RESERVED13 => 99
  | BAT_CHEMISTRY_NV_ADDR => 100
  | BAT_OCV10L_NV_ADDR => 101
  | BAT_OCV10H_NV_ADDR => 102
  | BAT_OCV50L_NV_ADDR => 103
  | BAT_OCV50H_NV_ADDR => 104
  | BAT_OCV90L_NV_ADDR => 105
  | BAT_OCV90H_NV_ADDR => 106
  | BAT_R10L_NV_ADDR => 107
  | BAT_R10H_NV_ADDR => 108
  | BAT_R50L_NV_ADDR => 109
  | BAT_R50H_NV_ADDR => 110
  | BAT_R90L_NV_ADDR => 111
  | BAT_R90H_NV_ADDR => 112
  | WATCHDOG_CONFIGH_NV_ADDR => 113
  | ISENSE_RES_SPAN_L => 114
  | ISENSE_RES_SPAN_H => 115
  | NV_VAR_NUM => 116
  end.

(** [#define NB_OF_VAR NV_VAR_NUM] *)
Definition NB_OF_VAR : Z := NvVarId_T_value NV_VAR_NUM.

(** The virtual address of a variable: its enumerator passed as the
    [uint16_t address] (or [VirtAddress]) parameter of [NV_WriteVariable_U8],
    [NV_ReadVariable_U8], [NV_WipeVariable], [EE_WriteVariable] and
    [NvReadVariableU8]. *)
Definition virtual_address (id : NvVarId_T) : Z := uint16_t (NvVarId_T_value id).

(** The regions of the catalogue.  The header opens the static region with
    [NV_STATIC_START_ID] ("static variables are not deleted when reset to
    default") and the regular one with [NV_START_ID] ("starting id of
    variables"); the static ids are the calibration coefficients and the
    [NV_STATIC_ADDR_RESERVED] slots. *)
Inductive Region : Type := Marker | StaticRegion | RegularRegion.

Definition region (id : NvVarId_T) : Region :=
  match id with
  | NV_STATIC_START_ID | NV_START_ID | NV_VAR_NUM => Marker
  | NV_STATIC_ADDR_RESERVED0
  | VDG_ILOAD_CALIB_KTA_NV_ADDR
  | VDG_ILOAD_CALIB_KTB_NV_ADDR
  | RES_ILOAD_CALIB_ZERO_NV_ADDR
  | NV_STATIC_ADDR_RESERVED1
  | NV_STATIC_ADDR_RESERVED2
  | NV_STATIC_ADDR_RESERVED3
  | NV_STATIC_ADDR_RESERVED4
  | NV_STATIC_ADDR_RESERVED5
  | NV_STATIC_ADDR_RESERVED6
  | NV_STATIC_ADDR_RESERVED7
  | NV_STATIC_ADDR_RESERVED8
  | NV_STATIC_ADDR_RESERVED9
  | NV_STATIC_ADDR_RESERVED10
  | NV_STATIC_ADDR_RESERVED11
  | NV_STATIC_ADDR_RESERVED12 => StaticRegion
  | _ => RegularRegion
  end.

End Nv.

(* ====================================================================== *)
(** * osloop.c *)
(* ====================================================================== *)

Module Osloop.

(** [#define OSLOOP_LOOP_TRACKER_COUNT 16u] *)
Definition OSLOOP_LOOP_TRACKER_COUNT : Z := 16.

(** Conversion to [uint32_t], and [~] on a [uint32_t] operand. *)
Definition uint32_t (x : Z) : Z := x mod 2 ^ 32.
Definition not32 (x : Z) : Z := uint32_t (Z.lnot x).

(** ** The collaborators

    The modules behind adc.h, iodrv.h, analog.h, i2cdrv.h, hostcomms.h and
    led.h, each with the routines of the lifecycle contract.  [NvTask] is the
    periodic routine nv.h declares. *)
Inductive subsystem : Type := ADC | IODRV | ANALOG | I2CDRV | HOSTCOMMS | LED.

Inductive routine : Type :=
| Init (m : subsystem)
| Service (m : subsystem)
| Shutdown (m : subsystem)
| NvTask.

Abbreviation ADC_Init := (Init ADC).
Abbreviation IODRV_Init := (Init IODRV).
Abbreviation ANALOG_Init := (Init ANALOG).
Abbreviation I2CDRV_Init := (Init I2CDRV).
Abbreviation HOSTCOMMS_Init := (Init HOSTCOMMS).
Abbreviation LED_Init := (Init LED).
Abbreviation ADC_Service := (Service ADC).
Abbreviation IODRV_Service := (Service IODRV).
Abbreviation ANALOG_Service := (Service ANALOG).
Abbreviation I2CDRV_Service := (Service I2CDRV).
Abbreviation HOSTCOMMS_Service := (Service HOSTCOMMS).
Abbreviation LED_Service := (Service LED).
Abbreviation ADC_Shutdown := (Shutdown ADC).
Abbreviation IODRV_Shutdown := (Shutdown IODRV).
Abbreviation ANALOG_Shutdown := (Shutdown ANALOG).
Abbreviation I2CDRV_Shutdown := (Shutdown I2CDRV).
Abbreviation LED_Shutdown := (Shutdown LED).

#[global] Instance subsystem_eq_dec : EqDecision subsystem.
Proof. solve_decision. Defined.

#[global] Instance routine_eq_dec : EqDecision routine.
Proof. solve_decision. Defined.

(** One call osloop.c makes into a collaborator: the routine and the
    [sysTime] argument, if the routine takes one. *)
Record event : Type := Call { callee : routine; argument : option Z }.

#[global] Instance event_eq_dec : EqDecision event.
Proof. solve_decision. Defined.

(** What osloop.c takes from outside: the state [W] of the rest of the
    machine (the collaborators' variables, the peripherals, the running
    clocks), the effect of every collaborator routine on it, the two reads
    [HAL_GetTick()] and [TIMER_OSLOOP->CNT], and the two HAL bit masks.
    The collaborators act on [W] only: the control registers of the loop
    timer and the file-scope variables of osloop.c are out of their reach. *)
Class Platform : Type := {
  W : Type;
  collaborator : routine -> option Z -> W -> W;
  HAL_GetTick : W -> Z;
  TIMER_OSLOOP_CNT : W -> Z;
  TIM_CR1_CEN : Z;
  TIM_IT_UPDATE : Z
}.

(** The registers of [TIMER_OSLOOP] that osloop.c writes. *)
Record TIM_TypeDef : Type := {
  CR1 : Z;
  DIER : Z;
  SR : Z
}.

(** The machine state: the timer registers, the two file-scope variables,
    the rest of the machine, and (ghost) the calls made so far. *)
Record state `{Platform} : Type := {
  TIMER_OSLOOP : TIM_TypeDef;
  m_osloopTimeTrack : list Z;
  m_osloopTimeTrackIdx : Z;
  world : W;
  trace : list event
}.

(** ** The monad of C statements: state passing, [None] for undefined
    behaviour (a store outside an array). *)
Definition M `{Platform} (A : Type) : Type := state -> option (A * state).

#[global] Instance M_ret `{Platform} : MRet M := fun A a s => Some (a, s).

#[global] Instance M_bind `{Platform} : MBind M :=
  fun A B f m s => match m s with Some (a, s') => f a s' | None => None end.

Section Scheduler.
Context `{P : Platform}.

Definition read {A : Type} (f : state -> A) : M A := fun s => Some (f s, s).
Definition modify (f : state -> state) : M unit := fun s => Some (tt, f s).

Definition set_TIMER_OSLOOP (t : TIM_TypeDef) (s : state) : state :=
  {| TIMER_OSLOOP := t;
     m_osloopTimeTrack := m_osloopTimeTrack s;
     m_osloopTimeTrackIdx := m_osloopTimeTrackIdx s;
     world := world s;
     trace := trace s |}.

Definition set_CR1 (v : Z) (s : state) : state :=
  set_TIMER_OSLOOP
    {| CR1 := v; DIER := DIER (TIMER_OSLOOP s); SR := SR (TIMER_OSLOOP s) |} s.

Definition set_DIER (v : Z) (s : state) : state :=
  set_TIMER_OSLOOP
    {| CR1 := CR1 (TIMER_OSLOOP s); DIER := v; SR := SR (TIMER_OSLOOP s) |} s.

Definition set_SR (v : Z) (s : state) : state :=
  set_TIMER_OSLOOP
    {| CR1 := CR1 (TIMER_OSLOOP s); DIER := DIER (TIMER_OSLOOP s); SR := v |} s.

Definition set_m_osloopTimeTrack (a : list Z) (s : state) : state :=
  {| TIMER_OSLOOP := TIMER_OSLOOP s;
     m_osloopTimeTrack := a;
     m_osloopTimeTrackIdx := m_osloopTimeTrackIdx s;
     world := world s;
     trace := trace s |}.

Definition set_m_osloopTimeTrackIdx (i : Z) (s : state) : state :=
  {| TIMER_OSLOOP := TIMER_OSLOOP s;
     m_osloopTimeTrack := m_osloopTimeTrack s;
     m_osloopTimeTrackIdx := i;
     world := world s;
     trace := trace s |}.

(** [r(arg)]: the collaborator acts on the rest of the machine, and the call
    is logged. *)
Definition call (r : routine) (arg : option Z) : M unit :=
  modify (fun s =>
    {| TIMER_OSLOOP := TIMER_OSLOOP s;
       m_osloopTimeTrack := m_osloopTimeTrack s;
       m_osloopTimeTrackIdx := m_osloopTimeTrackIdx s;
       world := collaborator r arg (world s);
       trace := trace s ++ [Call r arg] |}).

(** [m_osloopTimeTrack[i] = v]: defined inside the declared bounds only. *)
Definition store_m_osloopTimeTrack (i v : Z) : M unit :=
  fun s =>
    if (0 <=? i) && (i <? OSLOOP_LOOP_TRACKER_COUNT)
    then Some (tt, set_m_osloopTimeTrack
                     (<[Z.to_nat i := v]> (m_osloopTimeTrack s)) s)
    else None.

(** [void OSLOOP_Service(void)] *)
Definition OSLOOP_Service : M unit :=
  sysTime ← read (fun s => uint32_t (HAL_GetTick (world s)));
  timeIn ← read (fun s => uint32_t (TIMER_OSLOOP_CNT (world s)));
  call ADC_Service (Some sysTime);;
  call IODRV_Service (Some sysTime);;
  call ANALOG_Service (Some sysTime);;
  call I2CDRV_Service (Some sysTime);;
  call HOSTCOMMS_Service (Some sysTime);;
  call LED_Service (Some sysTime);;
  cnt ← read (fun s => uint32_t (TIMER_OSLOOP_CNT (world s)));
  idx ← read m_osloopTimeTrackIdx;
  store_m_osloopTimeTrack idx (uint32_t (cnt - timeIn));;
  modify (fun s => set_m_osloopTimeTrackIdx (uint32_t (m_osloopTimeTrackIdx s + 1)) s);;
  idx' ← read m_osloopTimeTrackIdx;
  if OSLOOP_LOOP_TRACKER_COUNT =? idx'
  then modify (set_m_osloopTimeTrackIdx 0)
  else mret tt.

(** [void OSLOOP_TIMER_IRQHandler(void)] *)
Definition OSLOOP_TIMER_IRQHandler : M unit :=
  OSLOOP_Service;;
  modify (fun s => set_SR (Z.land (SR (TIMER_OSLOOP s)) (not32 TIM_IT_UPDATE)) s).

(** [void OSLOOP_Init(void)] *)
Definition OSLOOP_Init : M unit :=
  sysTime ← read (fun s => uint32_t (HAL_GetTick (world s)));
  call ADC_Init (Some sysTime);;
  call IODRV_Init (Some sysTime);;
  call ANALOG_Init (Some sysTime);;
  call I2CDRV_Init (Some sysTime);;
  call HOSTCOMMS_Init (Some sysTime);;
  call LED_Init (Some sysTime);;
  modify (fun s => set_CR1 (Z.lor (CR1 (TIMER_OSLOOP s)) TIM_CR1_CEN) s);;
  modify (fun s => set_DIER (Z.lor (DIER (TIMER_OSLOOP s)) TIM_IT_UPDATE) s).

(** [void OSLOOP_Shutdown(void)] *)
Definition OSLOOP_Shutdown : M unit :=
  modify (fun s => set_DIER (Z.land (DIER (TIMER_OSLOOP s)) (not32 TIM_IT_UPDATE)) s);;
  call ADC_Shutdown None;;
  call IODRV_Shutdown None;;
  call ANALOG_Shutdown None;;
  call I2CDRV_Shutdown None;;
  call LED_Shutdown None.

(** [void OSLOOP_Restart(void)] *)
Definition OSLOOP_Restart : M unit :=
  sysTime ← read (fun s => uint32_t (HAL_GetTick (world s)));
  call ADC_Init (Some sysTime);;
  call IODRV_Init (Some sysTime);;
  call ANALOG_Init (Some sysTime);;
  call I2CDRV_Init (Some sysTime);;
  call LED_Init (Some sysTime);;
  modify (fun s => set_CR1 (Z.lor (CR1 (TIMER_OSLOOP s)) TIM_CR1_CEN) s);;
  modify (fun s => set_DIER (Z.lor (DIER (TIMER_OSLOOP s)) TIM_IT_UPDATE) s).

(** [void OSLOOP_AtomicAccess(bool access)] *)
Definition OSLOOP_AtomicAccess (access : bool) : M unit :=
  if access
  then modify (fun s => set_DIER (Z.land (DIER (TIMER_OSLOOP s)) (not32 TIM_IT_UPDATE)) s)
  else modify (fun s => set_DIER (Z.lor (DIER (TIMER_OSLOOP s)) TIM_IT_UPDATE) s).

(** ** The machine around osloop.c *)

(** The update interrupt of the loop timer is enabled when the
    [TIM_IT_UPDATE] bits of [DIER] are not all clear. *)
Definition update_interrupt_enabled (s : state) : bool :=
  negb (Z.land (DIER (TIMER_OSLOOP s)) TIM_IT_UPDATE =? 0).

(** Modelled from the spec: the dispatch of the periodic interrupt, which is
    hardware and start-up code and not among the sources.  At the end of a
    timer period the handler runs if the update interrupt is enabled
    ("acquire disables the periodic interrupt ..., and release re-enables
    it"); otherwise nothing runs. *)
Definition timer_period_elapsed : M unit :=
  fun s => if update_interrupt_enabled s then OSLOOP_TIMER_IRQHandler s
           else Some (tt, s).

(** What can happen to the machine, one step at a time: a call of one of the
    global functions of osloop.c from the foreground, the end of a timer
    period, or foreground work elsewhere, which acts on the rest of the
    machine only. *)
Inductive step : Type :=
| Step_Init
| Step_Shutdown
| Step_Restart
| Step_AtomicAccess (access : bool)
| Step_TimerPeriod
| Step_Foreground (f : W -> W).

Definition run_step (st : step) : M unit :=
  match st with
  | Step_Init => OSLOOP_Init
  | Step_Shutdown => OSLOOP_Shutdown
  | Step_Restart => OSLOOP_Restart
  | Step_AtomicAccess access => OSLOOP_AtomicAccess access
  | Step_TimerPeriod => timer_period_elapsed
  | Step_Foreground f =>
      modify (fun s =>
        {| TIMER_OSLOOP := TIMER_OSLOOP s;
           m_osloopTimeTrack := m_osloopTimeTrack s;
           m_osloopTimeTrackIdx := m_osloopTimeTrackIdx s;
           world := f (world s);
           trace := trace s |})
  end.

Fixpoint run (sts : list step) : M unit :=
  match sts with
  | [] => mret tt
  | st :: sts' => run_step st;; run sts'
  end.

(** A step that neither calls into osloop.c nor is one of its functions:
    what may lie between an acquire of the gate and its release. *)
Definition leaves_gate_alone (st : step) : bool :=
  match st with
  | Step_TimerPeriod | Step_Foreground _ => true
  | _ => false
  end.

(** A step that cannot set the update-interrupt enable: any step but init,
    restart and a release of the gate, the three places where osloop.c has
    [DIER |= TIM_IT_UPDATE]. *)
Definition keeps_interrupt_masked (st : step) : bool :=
  match st with
  | Step_Init | Step_Restart | Step_AtomicAccess false => false
  | _ => true
  end.

(** The state at reset: the static variables as C initialises them
    ([m_osloopTimeTrack] zeroed, [m_osloopTimeTrackIdx = 0u]), the timer
    registers and the rest of the machine as given, nothing called yet. *)
Definition boot (tim : TIM_TypeDef) (w : W) : state :=
  {| TIMER_OSLOOP := tim;
     m_osloopTimeTrack := replicate (Z.to_nat OSLOOP_LOOP_TRACKER_COUNT) 0;
     m_osloopTimeTrackIdx := 0;
     world := w;
     trace := [] |}.

(** Calls of one verb of the lifecycle contract, with one argument, to a
    list of subsystems in order. *)
Definition calls_to (verb : subsystem -> routine) (arg : option Z)
    (ms : list subsystem) : list event :=
  (fun m => Call (verb m) arg) <$> ms.

(** The rest of the machine after a sequence of calls. *)
Definition after_calls (es : list event) (w : W) : W :=
  foldl (fun w' e => collaborator (callee e) (argument e) w') w es.

(** The calls of a run of timer periods, one tick per period: the six
    service calls of each period under its tick. *)
Definition period_calls (ticks : list Z) : list event :=
  mjoin ((fun t => calls_to Service (Some t)
                     [ADC; IODRV; ANALOG; I2CDRV; HOSTCOMMS; LED]) <$> ticks).

(** The routines called between two states, in call order. *)
Definition callees_between (before after : state) : list routine :=
  callee <$> drop (length (trace before)) (trace after).

(** The index into [m_osloopTimeTrack] is inside the declared bounds, and the
    array has its declared size. *)
Definition tracker_in_bounds (s : state) : Prop :=
  0 <= m_osloopTimeTrackIdx s < OSLOOP_LOOP_TRACKER_COUNT /\
  length (m_osloopTimeTrack s) = Z.to_nat OSLOOP_LOOP_TRACKER_COUNT.

(** The state with its call log left out. *)
Definition machine (s : state) : TIM_TypeDef * list Z * Z * W :=
  (TIMER_OSLOOP s, m_osloopTimeTrack s, m_osloopTimeTrackIdx s, world s).

End Scheduler.

(** ** Two platforms to run the loop on *)

(** Collaborators without state; the HAL masks as the STM32 HAL has them. *)
Definition quiet_platform : Platform :=
  {| W := unit;
     collaborator := fun _ _ w => w;
     HAL_GetTick := fun _ => 1000;
     TIMER_OSLOOP_CNT := fun _ => 7;
     TIM_CR1_CEN := 1;
     TIM_IT_UPDATE := 1 |}.

(** The rest of the machine is a clock that every collaborator call advances
    and the number of times host comms has been initialised. *)
Definition counting_platform : Platform :=
  {| W := Z * Z;
     collaborator := fun r _ w =>
       match r with
       | HOSTCOMMS_Init => (fst w + 1, snd w + 1)
       | _ => (fst w + 1, snd w)
       end;
     HAL_GetTick := fun w => fst w / 8;
     TIMER_OSLOOP_CNT := fun w => fst w;
     TIM_CR1_CEN := 1;
     TIM_IT_UPDATE := 1 |}.

Definition reset_registers : TIM_TypeDef := {| CR1 := 0; DIER := 0; SR := 0 |}.

(** The two machines fresh from reset. *)
Definition quiet_boot : @state quiet_platform :=
  @boot quiet_platform reset_registers tt.

Definition counting_boot : @state counting_platform :=
  @boot counting_platform reset_registers (0, 0).

(** The counting machine with the loop timer running and its update
    interrupt enabled. *)
Definition counting_running : @state counting_platform :=
  @boot counting_platform {| CR1 := 1; DIER := 1; SR := 0 |} (0, 0).

End Osloop.

(* ====================================================================== *)
(** * Properties of nv.h *)
(* ====================================================================== *)

Section ByteArithmetic.

(** Masking with 0xFF keeps the low byte. *)
Lemma land_0xFF (x : Z) : Z.land x 0xFF = x mod 256.
Proof. change 0xFF with (Z.ones 8). apply Z.land_ones. lia. Qed.

(** The low byte of a complement, in arithmetic form. *)
Lemma complement8_eq (x : Z) : Nv.complement8 x = 255 - x mod 256.
Proof.
  unfold Nv.complement8. rewrite land_0xFF.
  unfold Z.lnot. rewrite <- Z.sub_1_r.
  symmetry. apply Z.mod_unique_pos with (q := - (x / 256) - 1).
  - pose proof (Z.mod_pos_bound x 256). lia.
  - pose proof (Z.div_mod x 256 ltac:(lia)). lia.
Qed.

Lemma payload_of_eq (r : Z) : Nv.payload_of r = r mod 256.
Proof. apply land_0xFF. Qed.

Lemma checksum_of_eq (r : Z) : Nv.checksum_of r = r / 256.
Proof.
  unfold Nv.checksum_of. now rewrite Z.shiftr_div_pow2 by lia.
Qed.

(** A byte and a byte shifted by eight bits share no bit, so or-ing them
    adds them. *)
Lemma lor_bytes (lo hi : Z) :
  0 <= lo <= 255 -> Z.lor lo (Z.shiftl hi 8) = lo + 256 * hi.
Proof.
  intros Hlo.
  rewrite Z.shiftl_mul_pow2 by lia.
  rewrite <- Z.add_nocarry_lor; [change (2 ^ 8) with 256; lia|].
  apply Z.bits_inj'. intros n Hn.
  rewrite Z.land_spec, Z.bits_0.
  destruct (Z.lt_ge_cases n 8) as [Hlt | Hge].
  - rewrite Z.mul_pow2_bits_low by lia. apply andb_false_r.
  - replace lo with (lo mod 2 ^ 8) by (apply Z.mod_small; lia).
    now rewrite Z.mod_pow2_bits_high by lia.
Qed.

Lemma encode_eq (p : Z) :
  0 <= p <= 255 -> Nv.encode p = p + 256 * (255 - p).
Proof.
  intros Hp. unfold Nv.encode.
  rewrite lor_bytes by lia.
  rewrite complement8_eq, Z.mod_small by lia. reflexivity.
Qed.

Lemma valid_iff (r : Z) :
  Nv.NV_IS_VARIABLE_VALID r = true <->
  Nv.checksum_of r = Nv.complement8 (Nv.payload_of r).
Proof.
  unfold Nv.NV_IS_VARIABLE_VALID. rewrite Z.eqb_eq.
  fold (Nv.complement8 r). fold (Nv.checksum_of r).
  rewrite !complement8_eq, payload_of_eq, Z.mod_mod by lia.
  split; intros H; lia.
Qed.

End ByteArithmetic.

(** C1.  For every payload byte p (0 <= p <= 255) the encoded record is a
    16-bit value whose high byte is the bitwise complement of p and whose low
    byte is p; [NV_IS_VARIABLE_VALID] holds of it, and decoding it succeeds
    and returns p. *)
Theorem codec_round_trip (p : Z) :
  0 <= p <= 255 ->
  0 <= Nv.encode p < 2 ^ 16 /\
  Nv.checksum_of (Nv.encode p) = Nv.complement8 p /\
  Nv.payload_of (Nv.encode p) = p /\
  Nv.NV_IS_VARIABLE_VALID (Nv.encode p) = true /\
  Nv.decode (Nv.encode p) = Nv.Ok p.
Proof.
  intros Hp.
  assert (Hpay : Nv.payload_of (Nv.encode p) = p).
  { rewrite payload_of_eq, encode_eq by lia.
    rewrite Z.mul_comm, Z.mod_add by lia. apply Z.mod_small. lia. }
  assert (Hchk : Nv.checksum_of (Nv.encode p) = Nv.complement8 p).
  { rewrite checksum_of_eq, encode_eq, complement8_eq by lia.
    rewrite Z.mul_comm, Z.div_add by lia.
    rewrite Z.div_small, Z.mod_small by lia. reflexivity. }
  assert (Hval : Nv.NV_IS_VARIABLE_VALID (Nv.encode p) = true).
  { apply valid_iff. now rewrite Hpay. }
  repeat split; try assumption.
  - rewrite encode_eq by lia. lia.
  - rewrite encode_eq by lia. change (2 ^ 16) with 65536. lia.
  - unfold Nv.decode. now rewrite Hval, Hpay.
Qed.

Lemma codec_round_trip_witness :
  0 <= 0x5A <= 255 /\ Nv.decode (Nv.encode 0x5A) = Nv.Ok 0x5A.
Proof.
  split; [lia | apply (codec_round_trip 0x5A); lia].
Defined.

(** C2.  For every 16-bit record r: r passes the validity check exactly when
    its high byte (the checksum) equals the complement of its low byte (the
    payload) kept to 8 bits; a record whose bytes are not such complements
    decodes to [Invalid]; the erased-flash pattern 0xFFFF is one of them. *)
Theorem decode_rejects_non_complement (r : Z) :
  0 <= r < 2 ^ 16 ->
  (Nv.NV_IS_VARIABLE_VALID r = true <->
   Nv.checksum_of r = Z.land (Z.lnot (Nv.payload_of r)) 0xFF) /\
  (Nv.checksum_of r <> Nv.complement8 (Nv.payload_of r) ->
   Nv.decode r = Nv.Err Nv.Invalid) /\
  (Nv.decode r = Nv.Err Nv.Invalid ->
   Nv.checksum_of r <> Nv.complement8 (Nv.payload_of r)) /\
  (Nv.NV_IS_VARIABLE_VALID r = true -> r = Nv.encode (Nv.payload_of r)) /\
  Nv.decode 0xFFFF = Nv.Err Nv.Invalid.
Proof.
  intros Hr. change (2 ^ 16) with 65536 in Hr.
  split; [apply valid_iff|].
  split.
  { intros Hne. unfold Nv.decode.
    destruct (Nv.NV_IS_VARIABLE_VALID r) eqn:Hv; [|reflexivity].
    apply valid_iff in Hv. contradiction. }
  split.
  { unfold Nv.decode.
    destruct (Nv.NV_IS_VARIABLE_VALID r) eqn:Hv; [discriminate|].
    intros _ Heq. apply valid_iff in Heq. congruence. }
  split; [|reflexivity].
  intros Hv. apply valid_iff in Hv.
  pose proof (Z.mod_pos_bound r 256).
  rewrite encode_eq by (rewrite payload_of_eq; lia).
  rewrite checksum_of_eq, complement8_eq, payload_of_eq, Z.mod_mod in Hv by lia.
  rewrite payload_of_eq, <- Hv.
  pose proof (Z.div_mod r 256 ltac:(lia)). lia.
Qed.

Lemma decode_rejects_non_complement_witness :
  0 <= 0xFFFF < 2 ^ 16 /\
  Nv.checksum_of 0xFFFF <> Nv.complement8 (Nv.payload_of 0xFFFF) /\
  Nv.decode 0xFFFF = Nv.Err Nv.Invalid.
Proof.
  assert (Hr : 0 <= 0xFFFF < 2 ^ 16) by (change (2 ^ 16) with 65536; lia).
  assert (Hne : Nv.checksum_of 0xFFFF <> Nv.complement8 (Nv.payload_of 0xFFFF))
    by (vm_compute; discriminate).
  split; [exact Hr|]. split; [exact Hne|].
  exact (proj1 (proj2 (decode_rejects_non_complement 0xFFFF Hr)) Hne).
Defined.

(** C8.  The data is taken as initialized exactly when the init flag differs
    from 0xFFFF; [NV_VARIABLE_NON_STORED], written 0xffffffff under a
    [uint16_t] cast, is 0xFFFF, the erased-flash pattern: as an init flag it
    reads "not initialized", as a record it is not valid. *)
Theorem init_flag_sentinel :
  (forall nvInitFlag : Z,
     Nv.NV_IS_DATA_INITIALIZED nvInitFlag = true <-> nvInitFlag <> 0xFFFF) /\
  Nv.NV_VARIABLE_NON_STORED = 0xFFFF /\
  Nv.NV_IS_DATA_INITIALIZED Nv.NV_VARIABLE_NON_STORED = false /\
  Nv.NV_IS_VARIABLE_VALID Nv.NV_VARIABLE_NON_STORED = false.
Proof.
  split; [|repeat split].
  intros f. unfold Nv.NV_IS_DATA_INITIALIZED.
  rewrite negb_true_iff, Z.eqb_neq. reflexivity.
Qed.

(* ====================================================================== *)
(** * Properties of the catalogue *)
(* ====================================================================== *)

Lemma virtual_address_value (id : Nv.NvVarId_T) :
  Nv.virtual_address id = Nv.NvVarId_T_value id.
Proof. destruct id; reflexivity. Qed.

Lemma enumerator_at_value (id : Nv.NvVarId_T) :
  Nv.NvVarId_T_enumerators !! Z.to_nat (Nv.NvVarId_T_value id) = Some id.
Proof. destruct id; reflexivity. Qed.

Lemma value_of_position (i : nat) (id : Nv.NvVarId_T) :
  Nv.NvVarId_T_enumerators !! i = Some id -> Nv.NvVarId_T_value id = Z.of_nat i.
Proof.
  do 117 (destruct i as [|i]; [intros [= <-]; reflexivity|]).
  discriminate.
Qed.

(** C9.  The virtual address of every id is its zero-based position in the
    enumeration; every static-region id lies before [NV_START_ID], every
    regular-region id after it, and [NV_VAR_NUM] is the number of entries of
    the catalogue. *)
Theorem catalogue_addresses :
  (forall id : Nv.NvVarId_T,
     Nv.NvVarId_T_enumerators !! Z.to_nat (Nv.virtual_address id) = Some id) /\
  (forall (i : nat) (id : Nv.NvVarId_T),
     Nv.NV_VAR_LIST !! i = Some id -> Nv.virtual_address id = Z.of_nat i) /\
  (forall id : Nv.NvVarId_T,
     Nv.region id = Nv.StaticRegion ->
     Nv.virtual_address Nv.NV_STATIC_START_ID < Nv.virtual_address id
       < Nv.virtual_address Nv.NV_START_ID) /\
  (forall id : Nv.NvVarId_T,
     Nv.region id = Nv.RegularRegion ->
     Nv.virtual_address Nv.NV_START_ID < Nv.virtual_address id
       < Nv.NvVarId_T_value Nv.NV_VAR_NUM) /\
  Nv.NvVarId_T_value Nv.NV_VAR_NUM = Z.of_nat (length Nv.NV_VAR_LIST) /\
  Nv.NB_OF_VAR = Z.of_nat (length Nv.NV_VAR_LIST).
Proof.
  split.
  { intros id. rewrite virtual_address_value. apply enumerator_at_value. }
  split.
  { intros i id Hi. rewrite virtual_address_value.
    apply value_of_position. unfold Nv.NvVarId_T_enumerators.
    now apply lookup_app_l_Some. }
  split.
  { intros id. destruct id; simpl; intros H; try discriminate H;
      vm_compute; split; reflexivity. }
  split; [|split; reflexivity].
  intros id. destruct id; simpl; intros H; try discriminate H;
    vm_compute; split; reflexivity.
Qed.

(* ====================================================================== *)
(** * Properties of osloop.c *)
(* ====================================================================== *)

Import Osloop.

(** Unfolds the statements of a C function down to state passing. *)
Ltac run_c :=
  cbv beta iota delta
    [OSLOOP_Service OSLOOP_TIMER_IRQHandler OSLOOP_Init OSLOOP_Shutdown
     OSLOOP_Restart OSLOOP_AtomicAccess
     mbind M_bind mret M_ret read modify call store_m_osloopTimeTrack
     set_TIMER_OSLOOP set_CR1 set_DIER set_SR set_m_osloopTimeTrack
     set_m_osloopTimeTrackIdx
     TIMER_OSLOOP m_osloopTimeTrack m_osloopTimeTrackIdx world trace
     CR1 DIER SR].

Ltac run_c_in H :=
  cbv beta iota delta
    [TIMER_OSLOOP m_osloopTimeTrack m_osloopTimeTrackIdx world trace
     CR1 DIER SR] in H.

(** Membership in an explicit list, and its negation. *)
Ltac list_member :=
  apply list_elem_of_In; simpl; repeat (first [left; reflexivity | right]).

Ltac list_non_member :=
  let H := fresh "Hin" in
  intros H; apply list_elem_of_In in H; simpl in H; intuition discriminate.

Section BitMasks.

(** [x &= ~m] leaves no bit of [m] set. *)
Lemma land_not32_clear (x m : Z) : Z.land (Z.land x (not32 m)) m = 0.
Proof.
  apply Z.bits_inj'. intros n Hn.
  rewrite !Z.land_spec, Z.bits_0. unfold not32, uint32_t.
  destruct (Z.lt_ge_cases n 32) as [Hlt | Hge].
  - rewrite Z.mod_pow2_bits_low, Z.lnot_spec by lia.
    destruct (Z.testbit x n), (Z.testbit m n); reflexivity.
  - rewrite Z.mod_pow2_bits_high by lia.
    destruct (Z.testbit x n), (Z.testbit m n); reflexivity.
Qed.

(** [x |= m] sets every bit of [m]. *)
Lemma lor_land_set (x m : Z) : Z.land (Z.lor x m) m = m.
Proof.
  apply Z.bits_inj'. intros n Hn.
  rewrite Z.land_spec, Z.lor_spec.
  destruct (Z.testbit x n), (Z.testbit m n); reflexivity.
Qed.

End BitMasks.

Section SchedulerFacts.
Context `{P : Platform}.

Lemma in_bounds_check (idx : Z) :
  0 <= idx < OSLOOP_LOOP_TRACKER_COUNT ->
  (0 <=? idx) && (idx <? OSLOOP_LOOP_TRACKER_COUNT) = true.
Proof. intros H. apply andb_true_iff. lia. Qed.

Lemma next_index (idx : Z) :
  0 <= idx < OSLOOP_LOOP_TRACKER_COUNT ->
  (if OSLOOP_LOOP_TRACKER_COUNT =? uint32_t (idx + 1) then 0
   else uint32_t (idx + 1)) = (idx + 1) mod OSLOOP_LOOP_TRACKER_COUNT.
Proof.
  unfold OSLOOP_LOOP_TRACKER_COUNT, uint32_t. intros H.
  rewrite (Z.mod_small (idx + 1) (2 ^ 32)) by lia.
  destruct (Z.eqb_spec 16 (idx + 1)) as [E | E].
  - rewrite <- E. reflexivity.
  - symmetry. apply Z.mod_small. lia.
Qed.

Lemma OSLOOP_Service_runs (s : state) :
  tracker_in_bounds s ->
  exists s',
    OSLOOP_Service s = Some (tt, s') /\
    TIMER_OSLOOP s' = TIMER_OSLOOP s /\
    trace s' = trace s ++
      calls_to Service (Some (uint32_t (HAL_GetTick (world s))))
        [ADC; IODRV; ANALOG; I2CDRV; HOSTCOMMS; LED] /\
    world s' =
      after_calls
        (calls_to Service (Some (uint32_t (HAL_GetTick (world s))))
           [ADC; IODRV; ANALOG; I2CDRV; HOSTCOMMS; LED]) (world s) /\
    m_osloopTimeTrackIdx s' =
      (m_osloopTimeTrackIdx s + 1) mod OSLOOP_LOOP_TRACKER_COUNT /\
    tracker_in_bounds s'.
Proof.
  destruct s as [tim track idx w tr].
  intros [Hidx Hlen]. run_c_in Hidx. run_c_in Hlen.
  pose proof (next_index idx Hidx) as Hnext.
  assert (Hrange : 0 <= (idx + 1) mod OSLOOP_LOOP_TRACKER_COUNT
                   < OSLOOP_LOOP_TRACKER_COUNT)
    by (apply Z.mod_pos_bound; reflexivity).
  unfold tracker_in_bounds. run_c.
  rewrite (in_bounds_check idx Hidx). cbv beta iota.
  destruct (OSLOOP_LOOP_TRACKER_COUNT =? uint32_t (idx + 1));
    (eexists; split; [reflexivity|]); cbv beta iota;
    rewrite <- Hnext, <- !app_assoc, length_insert;
    repeat split; try reflexivity; try assumption; rewrite Hnext; apply Hrange.
Qed.


(** Outside the bounds the store of the periodic service call is undefined:
    the bound on the index is what makes the call return. *)
Lemma OSLOOP_Service_out_of_bounds (s : state) :
  ~ 0 <= m_osloopTimeTrackIdx s < OSLOOP_LOOP_TRACKER_COUNT ->
  OSLOOP_Service s = None.
Proof.
  destruct s as [tim track idx w tr]. intros Hidx. run_c_in Hidx. run_c.
  replace ((0 <=? idx) && (idx <? OSLOOP_LOOP_TRACKER_COUNT)) with false;
    [reflexivity|].
  symmetry. apply andb_false_iff. lia.
Qed.

Lemma OSLOOP_TIMER_IRQHandler_runs (s : state) :
  tracker_in_bounds s ->
  exists s',
    OSLOOP_TIMER_IRQHandler s = Some (tt, s') /\
    CR1 (TIMER_OSLOOP s') = CR1 (TIMER_OSLOOP s) /\
    DIER (TIMER_OSLOOP s') = DIER (TIMER_OSLOOP s) /\
    Z.land (SR (TIMER_OSLOOP s')) TIM_IT_UPDATE = 0 /\
    trace s' = trace s ++
      calls_to Service (Some (uint32_t (HAL_GetTick (world s))))
        [ADC; IODRV; ANALOG; I2CDRV; HOSTCOMMS; LED] /\
    m_osloopTimeTrackIdx s' =
      (m_osloopTimeTrackIdx s + 1) mod OSLOOP_LOOP_TRACKER_COUNT /\
    tracker_in_bounds s'.
Proof.
  intros Hs.
  destruct (OSLOOP_Service_runs s Hs) as (s1 & Hrun & Htim & Htr & _ & Hidx & Hb).
  unfold OSLOOP_TIMER_IRQHandler, mbind, M_bind. rewrite Hrun.
  unfold modify. eexists. split; [reflexivity|].
  destruct s1 as [tim1 track1 idx1 w1 tr1].
  unfold tracker_in_bounds in *.
  cbn [TIMER_OSLOOP m_osloopTimeTrack m_osloopTimeTrackIdx world trace
       set_SR set_TIMER_OSLOOP CR1 DIER SR] in *.
  rewrite <- Htim. repeat split; try assumption; try apply Hb.
  apply land_not32_clear.
Qed.

Lemma OSLOOP_Init_runs (s : state) :
  exists s',
    OSLOOP_Init s = Some (tt, s') /\
    TIMER_OSLOOP s' =
      {| CR1 := Z.lor (CR1 (TIMER_OSLOOP s)) TIM_CR1_CEN;
         DIER := Z.lor (DIER (TIMER_OSLOOP s)) TIM_IT_UPDATE;
         SR := SR (TIMER_OSLOOP s) |} /\
    trace s' = trace s ++
      calls_to Init (Some (uint32_t (HAL_GetTick (world s))))
        [ADC; IODRV; ANALOG; I2CDRV; HOSTCOMMS; LED] /\
    world s' =
      after_calls
        (calls_to Init (Some (uint32_t (HAL_GetTick (world s))))
           [ADC; IODRV; ANALOG; I2CDRV; HOSTCOMMS; LED]) (world s) /\
    m_osloopTimeTrack s' = m_osloopTimeTrack s /\
    m_osloopTimeTrackIdx s' = m_osloopTimeTrackIdx s.
Proof.
  destruct s as [tim track idx w tr]. run_c.
  eexists. split; [reflexivity|]. cbv beta iota.
  rewrite <- !app_assoc. repeat split.
Qed.

Lemma OSLOOP_Restart_runs (s : state) :
  exists s',
    OSLOOP_Restart s = Some (tt, s') /\
    TIMER_OSLOOP s' =
      {| CR1 := Z.lor (CR1 (TIMER_OSLOOP s)) TIM_CR1_CEN;
         DIER := Z.lor (DIER (TIMER_OSLOOP s)) TIM_IT_UPDATE;
         SR := SR (TIMER_OSLOOP s) |} /\
    trace s' = trace s ++
      calls_to Init (Some (uint32_t (HAL_GetTick (world s))))
        [ADC; IODRV; ANALOG; I2CDRV; LED] /\
    world s' =
      after_calls
        (calls_to Init (Some (uint32_t (HAL_GetTick (world s))))
           [ADC; IODRV; ANALOG; I2CDRV; LED]) (world s) /\
    m_osloopTimeTrack s' = m_osloopTimeTrack s /\
    m_osloopTimeTrackIdx s' = m_osloopTimeTrackIdx s.
Proof.
  destruct s as [tim track idx w tr]. run_c.
  eexists. split; [reflexivity|]. cbv beta iota.
  rewrite <- !app_assoc. repeat split.
Qed.

Lemma OSLOOP_Shutdown_runs (s : state) :
  exists s',
    OSLOOP_Shutdown s = Some (tt, s') /\
    TIMER_OSLOOP s' =
      {| CR1 := CR1 (TIMER_OSLOOP s);
         DIER := Z.land (DIER (TIMER_OSLOOP s)) (not32 TIM_IT_UPDATE);
         SR := SR (TIMER_OSLOOP s) |} /\
    trace s' = trace s ++
      calls_to Shutdown None [ADC; IODRV; ANALOG; I2CDRV; LED] /\
    world s' =
      after_calls (calls_to Shutdown None [ADC; IODRV; ANALOG; I2CDRV; LED])
        (world s) /\
    m_osloopTimeTrack s' = m_osloopTimeTrack s /\
    m_osloopTimeTrackIdx s' = m_osloopTimeTrackIdx s.
Proof.
  destruct s as [tim track idx w tr]. run_c.
  eexists. split; [reflexivity|]. cbv beta iota.
  rewrite <- !app_assoc. repeat split.
Qed.

Lemma OSLOOP_AtomicAccess_runs (access : bool) (s : state) :
  exists s',
    OSLOOP_AtomicAccess access s = Some (tt, s') /\
    TIMER_OSLOOP s' =
      {| CR1 := CR1 (TIMER_OSLOOP s);
         DIER := if access
                 then Z.land (DIER (TIMER_OSLOOP s)) (not32 TIM_IT_UPDATE)
                 else Z.lor (DIER (TIMER_OSLOOP s)) TIM_IT_UPDATE;
         SR := SR (TIMER_OSLOOP s) |} /\
    trace s' = trace s /\
    world s' = world s /\
    m_osloopTimeTrack s' = m_osloopTimeTrack s /\
    m_osloopTimeTrackIdx s' = m_osloopTimeTrackIdx s.
Proof.
  destruct s as [tim track idx w tr].
  destruct access; run_c; (eexists; split; [reflexivity|]); repeat split.
Qed.

Lemma callees_between_app (s s' : state) (es : list event) :
  trace s' = trace s ++ es -> callees_between s s' = callee <$> es.
Proof.
  intros H. unfold callees_between. now rewrite H, drop_app_length.
Qed.

Lemma masked_when_clear (s : state) :
  Z.land (DIER (TIMER_OSLOOP s)) TIM_IT_UPDATE = 0 ->
  update_interrupt_enabled s = false.
Proof. unfold update_interrupt_enabled. intros ->. reflexivity. Qed.

Lemma timer_period_masked (s : state) :
  update_interrupt_enabled s = false -> timer_period_elapsed s = Some (tt, s).
Proof. unfold timer_period_elapsed. intros ->. reflexivity. Qed.

Lemma boot_in_bounds (tim : TIM_TypeDef) (w : W) : tracker_in_bounds (boot tim w).
Proof. split; [unfold OSLOOP_LOOP_TRACKER_COUNT; simpl; lia | reflexivity]. Qed.

Lemma run_step_in_bounds (st : step) (s : state) :
  tracker_in_bounds s ->
  exists s', run_step st s = Some (tt, s') /\ tracker_in_bounds s'.
Proof.
  intros Hs. unfold tracker_in_bounds in *.
  destruct st as [ | | | access | | f]; cbn [run_step].
  - destruct (OSLOOP_Init_runs s) as (s' & Hrun & _ & _ & _ & Ht & Hi).
    exists s'. now rewrite Ht, Hi.
  - destruct (OSLOOP_Shutdown_runs s) as (s' & Hrun & _ & _ & _ & Ht & Hi).
    exists s'. now rewrite Ht, Hi.
  - destruct (OSLOOP_Restart_runs s) as (s' & Hrun & _ & _ & _ & Ht & Hi).
    exists s'. now rewrite Ht, Hi.
  - destruct (OSLOOP_AtomicAccess_runs access s)
      as (s' & Hrun & _ & _ & _ & Ht & Hi).
    exists s'. now rewrite Ht, Hi.
  - unfold timer_period_elapsed.
    destruct (update_interrupt_enabled s).
    + destruct (OSLOOP_TIMER_IRQHandler_runs s Hs)
        as (s' & Hrun & _ & _ & _ & _ & _ & Hb).
      now exists s'.
    + now exists s.
  - eexists. split; [reflexivity|]. exact Hs.
Qed.

Lemma run_in_bounds (sts : list step) (s : state) :
  tracker_in_bounds s ->
  exists s', run sts s = Some (tt, s') /\ tracker_in_bounds s'.
Proof.
  revert s. induction sts as [|st sts IH]; intros s Hs.
  - now exists s.
  - destruct (run_step_in_bounds st s Hs) as (s1 & Hstep & Hs1).
    destruct (IH s1 Hs1) as (s2 & Hrun & Hs2).
    exists s2. split; [|assumption].
    cbn [run]. unfold mbind, M_bind. now rewrite Hstep.
Qed.

(** While the update interrupt is disabled and nothing touches the gate, the
    ends of timer periods dispatch nothing: no call is made, and the timer
    registers and the tracker stay as they are. *)
Lemma run_gate_alone (sts : list step) (s : state) :
  update_interrupt_enabled s = false ->
  forallb leaves_gate_alone sts = true ->
  exists s',
    run sts s = Some (tt, s') /\
    trace s' = trace s /\
    TIMER_OSLOOP s' = TIMER_OSLOOP s /\
    m_osloopTimeTrack s' = m_osloopTimeTrack s /\
    m_osloopTimeTrackIdx s' = m_osloopTimeTrackIdx s /\
    update_interrupt_enabled s' = false.
Proof.
  revert s. induction sts as [|st sts IH]; intros s Hoff Hsts.
  - now exists s.
  - cbn [forallb] in Hsts. apply andb_true_iff in Hsts as [Hst Hsts].
    cbn [run]. unfold mbind, M_bind.
    destruct st as [ | | | access | | f]; try discriminate Hst; cbn [run_step].
    + rewrite (timer_period_masked s Hoff). now apply IH.
    + unfold modify.
      match goal with |- context [run sts ?s1] =>
        destruct (IH s1) as (s2 & Hrun & Htr & Htim & Ht & Hi & Hoff2);
          [exact Hoff | exact Hsts |]
      end.
      exists s2. now rewrite Hrun.
Qed.

(** A step that cannot set the update-interrupt enable, taken with the
    interrupt disabled, leaves it disabled and calls shutdown routines at
    most. *)
Lemma run_step_masked (st : step) (s : state) :
  update_interrupt_enabled s = false ->
  keeps_interrupt_masked st = true ->
  exists s' es,
    run_step st s = Some (tt, s') /\
    trace s' = trace s ++ es /\
    Forall (fun e => exists m, callee e = Shutdown m) es /\
    m_osloopTimeTrackIdx s' = m_osloopTimeTrackIdx s /\
    update_interrupt_enabled s' = false.
Proof.
  intros Hoff Hst.
  destruct st as [ | | | access | | f]; try discriminate Hst; cbn [run_step].
  - destruct (OSLOOP_Shutdown_runs s) as (s' & Hrun & Htim & Htr & _ & _ & Hi).
    exists s', (calls_to Shutdown None [ADC; IODRV; ANALOG; I2CDRV; LED]).
    split; [exact Hrun|]. split; [exact Htr|].
    split; [repeat constructor; eexists; reflexivity|].
    split; [exact Hi|].
    apply masked_when_clear. rewrite Htim. apply land_not32_clear.
  - destruct access; [|discriminate Hst].
    destruct (OSLOOP_AtomicAccess_runs true s) as (s' & Hrun & Htim & Htr & _ & _ & Hi).
    exists s', []. split; [exact Hrun|].
    split; [now rewrite app_nil_r|]. split; [constructor|].
    split; [exact Hi|].
    apply masked_when_clear. rewrite Htim. apply land_not32_clear.
  - exists s, []. rewrite (timer_period_masked s Hoff), app_nil_r.
    repeat split; [constructor | exact Hoff].
  - eexists. exists []. split; [reflexivity|].
    split; [cbn; now rewrite app_nil_r|]. split; [constructor|].
    split; [reflexivity | exact Hoff].
Qed.

(** With the update interrupt disabled, no run of such steps dispatches a
    service routine (or [NvTask]), whatever else it does. *)
Lemma run_masked (sts : list step) (s : state) :
  update_interrupt_enabled s = false ->
  forallb keeps_interrupt_masked sts = true ->
  exists s',
    run sts s = Some (tt, s') /\
    (forall m : subsystem, Service m ∉ callees_between s s') /\
    (NvTask ∉ callees_between s s') /\
    m_osloopTimeTrackIdx s' = m_osloopTimeTrackIdx s /\
    update_interrupt_enabled s' = false.
Proof.
  intros Hoff Hsts.
  assert (Hrun : exists s' es,
            run sts s = Some (tt, s') /\
            trace s' = trace s ++ es /\
            Forall (fun e => exists m, callee e = Shutdown m) es /\
            m_osloopTimeTrackIdx s' = m_osloopTimeTrackIdx s /\
            update_interrupt_enabled s' = false).
  { revert s Hoff Hsts. induction sts as [|st sts IH]; intros s Hoff Hsts.
    - exists s, []. rewrite app_nil_r. repeat split; [constructor | exact Hoff].
    - cbn [forallb] in Hsts. apply andb_true_iff in Hsts as [Hst Hsts].
      destruct (run_step_masked st s Hoff Hst)
        as (s1 & es1 & Hstep & Htr1 & Hes1 & Hi1 & Hoff1).
      destruct (IH s1 Hoff1 Hsts) as (s2 & es2 & Hrun2 & Htr2 & Hes2 & Hi2 & Hoff2).
      exists s2, (es1 ++ es2).
      split; [cbn [run]; unfold mbind, M_bind; now rewrite Hstep|].
      split; [now rewrite Htr2, Htr1, app_assoc|].
      split; [now apply Forall_app|].
      split; [congruence | exact Hoff2]. }
  destruct Hrun as (s' & es & Hrun & Htr & Hes & Hi & Hoff').
  exists s'. split; [exact Hrun|].
  rewrite (callees_between_app _ _ _ Htr).
  assert (Hnot : forall r : routine,
            (forall m, r <> Shutdown m) -> r ∉ callee <$> es).
  { intros r Hr Hin. apply list_elem_of_fmap in Hin as (e & -> & He).
    rewrite Forall_forall in Hes. destruct (Hes e He) as [m Hm].
    now apply (Hr m). }
  split; [intros m; apply Hnot; discriminate|].
  split; [apply Hnot; discriminate|].
  split; [exact Hi | exact Hoff'].
Qed.

End SchedulerFacts.

(* ---------------------------------------------------------------------- *)
(** ** The periodic service call *)
(* ---------------------------------------------------------------------- *)

(** C3 (as amended).  Every run of the timer interrupt handler makes the
    periodic service call, which calls the service routines of ADC, I/O
    driver, analog, I2C driver, host comms and LED and nothing else: the
    drain task [NvTask] is not among the routines osloop.c calls. *)
Theorem periodic_service_omits_NvTask `{P : Platform} (s : state) :
  tracker_in_bounds s ->
  exists s',
    OSLOOP_TIMER_IRQHandler s = Some (tt, s') /\
    callees_between s s' =
      Service <$> [ADC; IODRV; ANALOG; I2CDRV; HOSTCOMMS; LED] /\
    (forall m : subsystem, Service m ∈ callees_between s s') /\
    NvTask ∉ callees_between s s'.
Proof.
  intros Hs.
  destruct (OSLOOP_TIMER_IRQHandler_runs s Hs)
    as (s' & Hrun & _ & _ & _ & Htr & _).
  exists s'. split; [exact Hrun|].
  rewrite (callees_between_app _ _ _ Htr). cbn.
  split; [reflexivity|]. split.
  - intros m. destruct m; list_member.
  - list_non_member.
Qed.

Lemma periodic_service_omits_NvTask_witness :
  tracker_in_bounds quiet_boot /\
  exists s',
    OSLOOP_TIMER_IRQHandler quiet_boot = Some (tt, s') /\
    NvTask ∉ callees_between quiet_boot s'.
Proof.
  assert (Hb : tracker_in_bounds quiet_boot)
    by (split; [vm_compute; split; [discriminate | reflexivity] | reflexivity]).
  split; [exact Hb|].
  destruct (periodic_service_omits_NvTask _ Hb) as (s' & Hrun & _ & _ & Hnot).
  exists s'. split; assumption.
Defined.

(** C3 as stated fails: a periodic service call on a machine fresh from
    reset returns, and [NvTask] is not among the routines it has called. *)
Lemma NvTask_not_serviced :
  exists s',
    OSLOOP_Service quiet_boot = Some (tt, s') /\
    callees_between quiet_boot s' =
      [ADC_Service; IODRV_Service; ANALOG_Service; I2CDRV_Service;
       HOSTCOMMS_Service; LED_Service] /\
    NvTask ∉ callees_between quiet_boot s'.
Proof.
  eexists. split; [vm_compute; reflexivity|].
  split; [reflexivity | list_non_member].
Qed.

(** C4.  In every periodic service call, whatever the state, the service
    routines are called in the order ADC, I/O driver, analog, I2C driver, host
    comms, LED, each exactly once and each with the tick read on entry. *)
Theorem service_order_fixed `{P : Platform} (s : state) :
  tracker_in_bounds s ->
  exists s',
    OSLOOP_Service s = Some (tt, s') /\
    trace s' = trace s ++
      calls_to Service (Some (uint32_t (HAL_GetTick (world s))))
        [ADC; IODRV; ANALOG; I2CDRV; HOSTCOMMS; LED] /\
    callees_between s s' =
      [ADC_Service; IODRV_Service; ANALOG_Service; I2CDRV_Service;
       HOSTCOMMS_Service; LED_Service] /\
    (forall m : subsystem,
       count_occ routine_eq_dec (callees_between s s') (Service m) = 1%nat) /\
    length (callees_between s s') = 6%nat.
Proof.
  intros Hs.
  destruct (OSLOOP_Service_runs s Hs) as (s' & Hrun & _ & Htr & _).
  exists s'. split; [exact Hrun|]. split; [exact Htr|].
  rewrite (callees_between_app _ _ _ Htr). cbn.
  split; [reflexivity|]. split; [|reflexivity].
  intros m. destruct m; reflexivity.
Qed.

Lemma service_order_fixed_witness :
  tracker_in_bounds counting_boot /\
  exists s',
    OSLOOP_Service counting_boot = Some (tt, s') /\
    trace s' =
      calls_to Service (Some 0) [ADC; IODRV; ANALOG; I2CDRV; HOSTCOMMS; LED].
Proof.
  assert (Hb : tracker_in_bounds
                 counting_boot)
    by (split; [vm_compute; split; [discriminate | reflexivity] | reflexivity]).
  split; [exact Hb|].
  destruct (service_order_fixed _ Hb) as (s' & Hrun & Htr & _).
  exists s'. split; [exact Hrun | exact Htr].
Defined.

(* ---------------------------------------------------------------------- *)
(** ** Init, shutdown and restart *)
(* ---------------------------------------------------------------------- *)

(** C5 (as amended).  Restart calls the init routine of every subsystem that
    init initialises except host comms (ADC, I/O, analog, bus driver and LED,
    in init's order and with the tick read on entry) and enables the timer
    and its update interrupt as init does.  From one state, restart and init
    leave the timer registers and the tracker equal, and the whole machine
    equal when [HOSTCOMMS_Init] changes nothing. *)
Theorem restart_reinitialises_all_but_hostcomms `{P : Platform} (s : state) :
  exists si sr,
    OSLOOP_Init s = Some (tt, si) /\
    OSLOOP_Restart s = Some (tt, sr) /\
    callees_between s si = Init <$> [ADC; IODRV; ANALOG; I2CDRV; HOSTCOMMS; LED] /\
    callees_between s sr = Init <$> [ADC; IODRV; ANALOG; I2CDRV; LED] /\
    (forall m : subsystem, m <> HOSTCOMMS -> Init m ∈ callees_between s sr) /\
    drop (length (trace s)) (trace sr) =
      filter (fun e => callee e <> HOSTCOMMS_Init)
        (drop (length (trace s)) (trace si)) /\
    TIMER_OSLOOP sr = TIMER_OSLOOP si /\
    Z.land (CR1 (TIMER_OSLOOP sr)) TIM_CR1_CEN = TIM_CR1_CEN /\
    Z.land (DIER (TIMER_OSLOOP sr)) TIM_IT_UPDATE = TIM_IT_UPDATE /\
    m_osloopTimeTrack sr = m_osloopTimeTrack si /\
    m_osloopTimeTrackIdx sr = m_osloopTimeTrackIdx si /\
    ((forall (t : Z) (w : W), collaborator HOSTCOMMS_Init (Some t) w = w) ->
     machine sr = machine si).
Proof.
  destruct (OSLOOP_Init_runs s) as (si & Hi & Htimi & Htri & Hwi & Hti & Hii).
  destruct (OSLOOP_Restart_runs s) as (sr & Hr & Htimr & Htrr & Hwr & Htr & Hir).
  exists si, sr.
  split; [exact Hi|]. split; [exact Hr|].
  rewrite (callees_between_app _ _ _ Htri), (callees_between_app _ _ _ Htrr).
  rewrite Htri, Htrr, !drop_app_length.
  split; [reflexivity|]. split; [reflexivity|].
  split.
  { intros m Hm. destruct m; try contradiction; list_member. }
  split; [reflexivity|].
  split; [congruence|].
  rewrite Htimr. cbn [CR1 DIER].
  split; [apply lor_land_set|]. split; [apply lor_land_set|].
  split; [congruence|]. split; [congruence|].
  intros Hid. unfold machine.
  rewrite Htimr, Htimi, Htr, Hti, Hir, Hii, Hwr, Hwi.
  cbn. now rewrite Hid.
Qed.

Lemma restart_reinitialises_all_but_hostcomms_witness :
  exists si sr,
    OSLOOP_Init quiet_boot = Some (tt, si) /\
    OSLOOP_Restart quiet_boot = Some (tt, sr) /\
    machine sr = machine si.
Proof.
  destruct (restart_reinitialises_all_but_hostcomms
              quiet_boot)
    as (si & sr & Hi & Hr & _ & _ & _ & _ & _ & _ & _ & _ & _ & Hsame).
  exists si, sr. split; [exact Hi|]. split; [exact Hr|].
  apply Hsame. intros t w. reflexivity.
Defined.

(** C5 as stated fails: on a machine that counts the initialisations of host
    comms, init calls [HOSTCOMMS_Init] and restart does not, and the two leave
    the rest of the machine in different states. *)
Lemma restart_skips_hostcomms :
  exists si sr,
    OSLOOP_Init counting_boot = Some (tt, si) /\
    OSLOOP_Restart counting_boot = Some (tt, sr) /\
    HOSTCOMMS_Init ∈ callees_between counting_boot si /\
    (HOSTCOMMS_Init ∉ callees_between counting_boot sr) /\
    world si = (6, 1) /\
    world sr = (5, 0) /\
    world sr <> world si.
Proof.
  eexists. eexists.
  split; [vm_compute; reflexivity|]. split; [vm_compute; reflexivity|].
  split; [list_member|]. split; [list_non_member|].
  split; [reflexivity|]. split; [reflexivity|]. discriminate.
Qed.




(* ---------------------------------------------------------------------- *)
(** ** The atomic-access gate *)
(* ---------------------------------------------------------------------- *)

(** C7 (as amended).  Whatever the update-interrupt enable was,
    [OSLOOP_AtomicAccess(true)] leaves it clear and
    [OSLOOP_AtomicAccess(false)] leaves it set.  After an acquire no service
    routine is dispatched as long as no step sets the enable again, that is,
    as long as no release of the gate, no init and no restart intervenes
    (timer periods, foreground work, further acquires and a shutdown may);
    and nothing at all is called as long as only timer periods and foreground
    work outside osloop.c follow. *)
Theorem atomic_access_gate `{P : Platform} (s : state) :
  (exists s1,
     OSLOOP_AtomicAccess true s = Some (tt, s1) /\
     Z.land (DIER (TIMER_OSLOOP s1)) TIM_IT_UPDATE = 0 /\
     update_interrupt_enabled s1 = false /\
     (forall sts : list step,
        forallb leaves_gate_alone sts = true ->
        exists s2,
          run sts s1 = Some (tt, s2) /\
          trace s2 = trace s1 /\
          m_osloopTimeTrackIdx s2 = m_osloopTimeTrackIdx s1 /\
          update_interrupt_enabled s2 = false) /\
     (forall sts : list step,
        forallb keeps_interrupt_masked sts = true ->
        exists s2,
          run sts s1 = Some (tt, s2) /\
          (forall m : subsystem, Service m ∉ callees_between s1 s2) /\
          (NvTask ∉ callees_between s1 s2) /\
          m_osloopTimeTrackIdx s2 = m_osloopTimeTrackIdx s1 /\
          update_interrupt_enabled s2 = false)) /\
  (exists s1,
     OSLOOP_AtomicAccess false s = Some (tt, s1) /\
     Z.land (DIER (TIMER_OSLOOP s1)) TIM_IT_UPDATE = TIM_IT_UPDATE /\
     (TIM_IT_UPDATE <> 0 -> update_interrupt_enabled s1 = true)).
Proof.
  split.
  - destruct (OSLOOP_AtomicAccess_runs true s) as (s1 & Hrun & Htim & _).
    assert (Hclear : Z.land (DIER (TIMER_OSLOOP s1)) TIM_IT_UPDATE = 0)
      by (rewrite Htim; apply land_not32_clear).
    exists s1. split; [exact Hrun|]. split; [exact Hclear|].
    split; [now apply masked_when_clear|].
    split.
    + intros sts Hsts.
      destruct (run_gate_alone sts s1 (masked_when_clear s1 Hclear) Hsts)
        as (s2 & Hrun2 & Htr2 & _ & _ & Hidx & Hoff).
      now exists s2.
    + intros sts Hsts.
      exact (run_masked sts s1 (masked_when_clear s1 Hclear) Hsts).
  - destruct (OSLOOP_AtomicAccess_runs false s) as (s1 & Hrun & Htim & _).
    assert (Hset : Z.land (DIER (TIMER_OSLOOP s1)) TIM_IT_UPDATE = TIM_IT_UPDATE)
      by (rewrite Htim; apply lor_land_set).
    exists s1. split; [exact Hrun|]. split; [exact Hset|].
    intros Hne. unfold update_interrupt_enabled. rewrite Hset.
    apply negb_true_iff, Z.eqb_neq, Hne.
Qed.

Lemma atomic_access_gate_witness :
  update_interrupt_enabled counting_running = true /\
  exists s1 s2 s3,
    OSLOOP_AtomicAccess true counting_running = Some (tt, s1) /\
    run [Step_TimerPeriod;
         Step_Foreground (P := counting_platform) (fun w => (fst w + 1, snd w));
         Step_TimerPeriod] s1 = Some (tt, s2) /\
    trace s2 = trace s1 /\
    run [Step_AtomicAccess true; Step_TimerPeriod; Step_Shutdown;
         Step_TimerPeriod] s1 = Some (tt, s3) /\
    (ADC_Service ∉ callees_between s1 s3).
Proof.
  split; [reflexivity|].
  destruct (atomic_access_gate counting_running)
    as [(s1 & Hrun & _ & _ & Hquiet & Hmasked) _].
  destruct (Hquiet [Step_TimerPeriod;
                    Step_Foreground (P := counting_platform)
                      (fun w => (fst w + 1, snd w));
                    Step_TimerPeriod])
    as (s2 & Hrun2 & Htr2 & _); [reflexivity|].
  destruct (Hmasked [Step_AtomicAccess true; Step_TimerPeriod; Step_Shutdown;
                     Step_TimerPeriod])
    as (s3 & Hrun3 & Hnone & _); [reflexivity|].
  exists s1, s2, s3. split; [exact Hrun|]. split; [exact Hrun2|].
  split; [exact Htr2|]. split; [exact Hrun3 | exact (Hnone ADC)].
Defined.

(** C7 as stated fails: the gate keeps no count of acquires, and init and
    restart set the enable too.  With the interrupt enabled and the gate
    acquired, a nested acquire and its release, or a restart, are each
    followed by a timer period that dispatches the service routines, though
    the first acquire has not been released. *)
Lemma atomic_access_gate_reopened :
  exists s1 s2 s3,
    OSLOOP_AtomicAccess true counting_running = Some (tt, s1) /\
    update_interrupt_enabled s1 = false /\
    run [Step_AtomicAccess true; Step_AtomicAccess false; Step_TimerPeriod] s1
      = Some (tt, s2) /\
    callees_between s1 s2 =
      [ADC_Service; IODRV_Service; ANALOG_Service; I2CDRV_Service;
       HOSTCOMMS_Service; LED_Service] /\
    run [Step_Restart; Step_TimerPeriod] s1 = Some (tt, s3) /\
    ADC_Service ∈ callees_between s1 s3.
Proof.
  eexists. eexists. eexists.
  split; [vm_compute; reflexivity|]. split; [reflexivity|].
  split; [vm_compute; reflexivity|]. split; [reflexivity|].
  split; [vm_compute; reflexivity|]. list_member.
Qed.

(* ---------------------------------------------------------------------- *)
(** ** The loop-time tracker *)
(* ---------------------------------------------------------------------- *)

(** C10.  [m_osloopTimeTrackIdx] starts at 0; in every state the machine
    reaches from reset it is below [OSLOOP_LOOP_TRACKER_COUNT], the store into
    [m_osloopTimeTrack] of a periodic service call from there is inside the
    array, and the call leaves the index incremented modulo 16, so below 16
    again. *)
Theorem tracker_index_in_bounds `{P : Platform}
    (tim : TIM_TypeDef) (w : W) (sts : list step) :
  m_osloopTimeTrackIdx (boot tim w) = 0 /\
  exists s,
    run sts (boot tim w) = Some (tt, s) /\
    0 <= m_osloopTimeTrackIdx s < OSLOOP_LOOP_TRACKER_COUNT /\
    (Z.to_nat (m_osloopTimeTrackIdx s) < length (m_osloopTimeTrack s))%nat /\
    exists s',
      OSLOOP_Service s = Some (tt, s') /\
      m_osloopTimeTrackIdx s' =
        (if m_osloopTimeTrackIdx s + 1 =? OSLOOP_LOOP_TRACKER_COUNT then 0
         else m_osloopTimeTrackIdx s + 1) /\
      0 <= m_osloopTimeTrackIdx s' < OSLOOP_LOOP_TRACKER_COUNT /\
      length (m_osloopTimeTrack s') = Z.to_nat OSLOOP_LOOP_TRACKER_COUNT.
Proof.
  split; [reflexivity|].
  destruct (run_in_bounds sts (boot tim w) (boot_in_bounds tim w))
    as (s & Hrun & Hs).
  exists s. split; [exact Hrun|].
  pose proof Hs as [Hidx Hlen].
  split; [exact Hidx|].
  split; [rewrite Hlen; unfold OSLOOP_LOOP_TRACKER_COUNT in *; lia|].
  destruct (OSLOOP_Service_runs s Hs) as (s' & Hrun' & _ & _ & _ & Hnext & Hs').
  exists s'. split; [exact Hrun'|].
  split; [|exact Hs'].
  rewrite Hnext. unfold OSLOOP_LOOP_TRACKER_COUNT in *.
  destruct (Z.eqb_spec (m_osloopTimeTrackIdx s + 1) 16) as [E | E].
  - rewrite E. reflexivity.
  - apply Z.mod_small. lia.
Qed.

(* ====================================================================== *)
(** * Further properties of nv.h *)
(* ====================================================================== *)

Section RecordArithmetic.

(** The validity macro in arithmetic form: the two bytes add up to 255. *)
Lemma valid_iff_sum (var : Z) :
  Nv.NV_IS_VARIABLE_VALID var = true <-> var / 256 + var mod 256 = 255.
Proof.
  rewrite valid_iff, checksum_of_eq, complement8_eq, payload_of_eq.
  rewrite Z.mod_mod by lia. lia.
Qed.

End RecordArithmetic.

(** X1.  Whatever integer the macro is given, it accepts exactly the 256
    values 65280 - 255 * p with p a byte: they lie between 0x00FF and 0xFF00,
    so nothing wider than 16 bits and nothing negative is ever valid. *)
Theorem valid_records_characterised (var : Z) :
  (Nv.NV_IS_VARIABLE_VALID var = true <->
   exists p : Z, 0 <= p <= 255 /\ var = 65280 - 255 * p) /\
  (Nv.NV_IS_VARIABLE_VALID var = true -> 0x00FF <= var <= 0xFF00).
Proof.
  assert (Hchar : Nv.NV_IS_VARIABLE_VALID var = true <->
                  exists p : Z, 0 <= p <= 255 /\ var = 65280 - 255 * p).
  { rewrite valid_iff_sum. split.
    - intros H. exists (var mod 256).
      pose proof (Z.mod_pos_bound var 256 ltac:(lia)).
      pose proof (Z.div_mod var 256 ltac:(lia)). lia.
    - intros (p & Hp & ->).
      replace (65280 - 255 * p) with (p + (255 - p) * 256) by lia.
      rewrite Z.div_add, Z.mod_add by lia.
      rewrite Z.div_small, Z.mod_small by lia. lia. }
  split; [exact Hchar|].
  intros H. apply Hchar in H as (p & Hp & ->). lia.
Qed.

Lemma valid_records_characterised_witness :
  Nv.NV_IS_VARIABLE_VALID 0xA55A = true /\ 0x00FF <= 0xA55A <= 0xFF00.
Proof.
  split; [reflexivity|].
  apply (proj2 (valid_records_characterised 0xA55A)). reflexivity.
Defined.

(** X2.  A valid record that is changed in one of its two bytes only, the
    other byte kept, is no longer valid: a write that reached only the
    payload byte or only the checksum byte is detected. *)
Theorem single_byte_corruption_detected (r r' : Z) :
  Nv.NV_IS_VARIABLE_VALID r = true ->
  r' <> r ->
  Nv.payload_of r' = Nv.payload_of r \/ Nv.checksum_of r' = Nv.checksum_of r ->
  Nv.NV_IS_VARIABLE_VALID r' = false.
Proof.
  intros Hr Hne Hsame.
  destruct (Nv.NV_IS_VARIABLE_VALID r') eqn:Hr'; [exfalso | reflexivity].
  apply valid_iff_sum in Hr, Hr'.
  rewrite !payload_of_eq, !checksum_of_eq in Hsame.
  pose proof (Z.div_mod r 256 ltac:(lia)).
  pose proof (Z.div_mod r' 256 ltac:(lia)).
  apply Hne. lia.
Qed.

Lemma single_byte_corruption_detected_witness :
  Nv.NV_IS_VARIABLE_VALID 0xA55A = true /\
  Nv.payload_of 0xA55B = 0x5B /\
  Nv.checksum_of 0xA55B = Nv.checksum_of 0xA55A /\
  Nv.NV_IS_VARIABLE_VALID 0xA55B = false.
Proof.
  split; [reflexivity|]. split; [reflexivity|]. split; [reflexivity|].
  apply (single_byte_corruption_detected 0xA55A 0xA55B);
    [reflexivity | discriminate | right; reflexivity].
Defined.

(** X3.  A record whose high byte equals its low byte is never valid: the
    erased pattern 0xFFFF, the zeroed pattern 0x0000 and every other doubled
    byte are rejected. *)
Theorem doubled_byte_invalid (r : Z) :
  Nv.checksum_of r = Nv.payload_of r ->
  Nv.NV_IS_VARIABLE_VALID r = false.
Proof.
  intros Hsame.
  destruct (Nv.NV_IS_VARIABLE_VALID r) eqn:Hr; [exfalso | reflexivity].
  apply valid_iff_sum in Hr.
  rewrite payload_of_eq, checksum_of_eq in Hsame. lia.
Qed.

Lemma doubled_byte_invalid_witness :
  Nv.checksum_of 0x0000 = Nv.payload_of 0x0000 /\
  Nv.NV_IS_VARIABLE_VALID 0x0000 = false.
Proof.
  split; [reflexivity|].
  apply (doubled_byte_invalid 0x0000). reflexivity.
Defined.

(** X4.  No two enumerators share a virtual address, every address is at most
    [NB_OF_VAR], and every address below [NB_OF_VAR] belongs to one entry of
    [NV_VAR_LIST], the one at that position. *)
Theorem addresses_distinct_and_dense :
  (forall id1 id2 : Nv.NvVarId_T,
     Nv.virtual_address id1 = Nv.virtual_address id2 -> id1 = id2) /\
  (forall id : Nv.NvVarId_T, 0 <= Nv.virtual_address id <= Nv.NB_OF_VAR) /\
  (forall id : Nv.NvVarId_T,
     id ∈ Nv.NV_VAR_LIST <-> Nv.virtual_address id < Nv.NB_OF_VAR) /\
  (forall a : Z,
     0 <= a < Nv.NB_OF_VAR ->
     exists id : Nv.NvVarId_T,
       Nv.NV_VAR_LIST !! Z.to_nat a = Some id /\ Nv.virtual_address id = a).
Proof.
  assert (Hdense : forall a : Z,
            0 <= a < Nv.NB_OF_VAR ->
            exists id : Nv.NvVarId_T,
              Nv.NV_VAR_LIST !! Z.to_nat a = Some id /\
              Nv.virtual_address id = a).
  { intros a Ha.
    destruct (lookup_lt_is_Some_2 Nv.NV_VAR_LIST (Z.to_nat a)) as [id Hid].
    { change (length Nv.NV_VAR_LIST) with (Z.to_nat Nv.NB_OF_VAR). lia. }
    exists id. split; [exact Hid|].
    rewrite virtual_address_value.
    rewrite (value_of_position (Z.to_nat a) id); [lia|].
    unfold Nv.NvVarId_T_enumerators. now apply lookup_app_l_Some. }
  split.
  { intros id1 id2 H.
    pose proof (enumerator_at_value id1) as H1.
    pose proof (enumerator_at_value id2) as H2.
    rewrite <- !virtual_address_value, H in *. congruence. }
  split.
  { intros id. destruct id; vm_compute; split; discriminate. }
  split; [|exact Hdense].
  intros id. split.
  - intros Hin. apply list_elem_of_lookup in Hin as [i Hi].
    pose proof (lookup_lt_Some _ _ _ Hi) as Hlt.
    change (length Nv.NV_VAR_LIST) with (Z.to_nat Nv.NB_OF_VAR) in Hlt.
    rewrite virtual_address_value.
    rewrite (value_of_position i id); [lia|].
    unfold Nv.NvVarId_T_enumerators. now apply lookup_app_l_Some.
  - intros Hlt.
    assert (Hge : 0 <= Nv.virtual_address id)
      by (destruct id; vm_compute; discriminate).
    destruct (Hdense (Nv.virtual_address id) (conj Hge Hlt)) as (id' & Hl & Ha).
    apply list_elem_of_lookup. exists (Z.to_nat (Nv.virtual_address id)).
    rewrite Hl. f_equal.
    pose proof (enumerator_at_value id) as H1.
    pose proof (enumerator_at_value id') as H2.
    rewrite <- !virtual_address_value, Ha in *. congruence.
Qed.

(** X5.  The regions are exactly the two address ranges the markers cut out:
    an id is static when its address lies strictly between those of
    [NV_STATIC_START_ID] and [NV_START_ID], regular when it lies strictly
    between that of [NV_START_ID] and [NB_OF_VAR]; there are 16 static and 98
    regular ids. *)
Theorem regions_are_address_ranges :
  (forall id : Nv.NvVarId_T,
     Nv.region id = Nv.StaticRegion <->
     Nv.virtual_address Nv.NV_STATIC_START_ID < Nv.virtual_address id
       < Nv.virtual_address Nv.NV_START_ID) /\
  (forall id : Nv.NvVarId_T,
     Nv.region id = Nv.RegularRegion <->
     Nv.virtual_address Nv.NV_START_ID < Nv.virtual_address id < Nv.NB_OF_VAR) /\
  length (List.filter
            (fun id => match Nv.region id with Nv.StaticRegion => true | _ => false end)
            Nv.NV_VAR_LIST) = 16%nat /\
  length (List.filter
            (fun id => match Nv.region id with Nv.RegularRegion => true | _ => false end)
            Nv.NV_VAR_LIST) = 98%nat.
Proof.
  split.
  { intros id. rewrite !virtual_address_value.
    destruct id; cbn [Nv.region Nv.NvVarId_T_value];
      (split; [intros H; first [discriminate H | lia] | intros H; first [reflexivity | lia]]). }
  split.
  { intros id. rewrite !virtual_address_value. unfold Nv.NB_OF_VAR.
    destruct id; cbn [Nv.region Nv.NvVarId_T_value];
      (split; [intros H; first [discriminate H | lia] | intros H; first [reflexivity | lia]]). }
  split; vm_compute; reflexivity.
Qed.

(* ====================================================================== *)
(** * Further properties of osloop.c *)
(* ====================================================================== *)

Section RegisterBits.

(** A 32-bit value has no bit from the 32nd on. *)
Lemma u32_high_bits (x n : Z) : 0 <= x < 2 ^ 32 -> 32 <= n -> Z.testbit x n = false.
Proof.
  intros Hx Hn. rewrite <- (Z.mod_small x (2 ^ 32)) by exact Hx.
  apply Z.mod_pow2_bits_high. lia.
Qed.

(** [x &= ~m] keeps every bit of the register that is not in [m]. *)
Lemma land_not32_other_bits (x m n : Z) :
  0 <= n < 32 -> Z.testbit m n = false ->
  Z.testbit (Z.land x (not32 m)) n = Z.testbit x n.
Proof.
  intros Hn Hm. unfold not32, uint32_t.
  rewrite Z.land_spec, Z.mod_pow2_bits_low, Z.lnot_spec, Hm by lia.
  apply andb_true_r.
Qed.

(** [x |= m] keeps every bit that is not in [m]. *)
Lemma lor_other_bits (x m n : Z) :
  Z.testbit m n = false -> Z.testbit (Z.lor x m) n = Z.testbit x n.
Proof. intros Hm. rewrite Z.lor_spec, Hm. apply orb_false_r. Qed.

(** Clearing then setting [m] in a 32-bit register is setting [m]. *)
Lemma lor_land_not32 (x m : Z) :
  0 <= x < 2 ^ 32 -> Z.lor (Z.land x (not32 m)) m = Z.lor x m.
Proof.
  intros Hx. apply Z.bits_inj'. intros n Hn.
  rewrite !Z.lor_spec, Z.land_spec. unfold not32, uint32_t.
  destruct (Z.lt_ge_cases n 32) as [Hlt | Hge].
  - rewrite Z.mod_pow2_bits_low, Z.lnot_spec by lia.
    destruct (Z.testbit x n), (Z.testbit m n); reflexivity.
  - rewrite (u32_high_bits x n Hx Hge). reflexivity.
Qed.

(** Setting then clearing [m] is clearing [m]. *)
Lemma land_not32_lor (x m : Z) :
  Z.land (Z.lor x m) (not32 m) = Z.land x (not32 m).
Proof.
  apply Z.bits_inj'. intros n Hn.
  rewrite !Z.land_spec, Z.lor_spec. unfold not32, uint32_t.
  destruct (Z.lt_ge_cases n 32) as [Hlt | Hge].
  - rewrite Z.mod_pow2_bits_low, Z.lnot_spec by lia.
    destruct (Z.testbit x n), (Z.testbit m n); reflexivity.
  - rewrite Z.mod_pow2_bits_high by lia. now rewrite !andb_false_r.
Qed.

Lemma land_not32_idem (x m : Z) :
  Z.land (Z.land x (not32 m)) (not32 m) = Z.land x (not32 m).
Proof. now rewrite <- Z.land_assoc, Z.land_diag. Qed.

Lemma lor_idem (x m : Z) : Z.lor (Z.lor x m) m = Z.lor x m.
Proof. now rewrite <- Z.lor_assoc, Z.lor_diag. Qed.

(** Setting bits that are already set changes nothing. *)
Lemma lor_absorb (x m : Z) : Z.land x m = m -> Z.lor x m = x.
Proof.
  intros H. apply Z.bits_inj'. intros n Hn.
  assert (Hb : Z.testbit (Z.land x m) n = Z.testbit m n) by now rewrite H.
  rewrite Z.land_spec in Hb. rewrite Z.lor_spec.
  destruct (Z.testbit x n), (Z.testbit m n); try reflexivity; discriminate Hb.
Qed.

End RegisterBits.

Section SchedulerRuns.
Context `{P : Platform}.

(** The slot the periodic service call writes, and what it writes there. *)
Lemma OSLOOP_Service_tracker (s : state) :
  tracker_in_bounds s ->
  exists s',
    OSLOOP_Service s = Some (tt, s') /\
    m_osloopTimeTrack s' =
      <[Z.to_nat (m_osloopTimeTrackIdx s) :=
          uint32_t (uint32_t (TIMER_OSLOOP_CNT (world s'))
                    - uint32_t (TIMER_OSLOOP_CNT (world s)))]>
        (m_osloopTimeTrack s).
Proof.
  destruct s as [tim track idx w tr].
  intros [Hidx Hlen]. run_c_in Hidx. run_c.
  rewrite (in_bounds_check idx Hidx). cbv beta iota.
  destruct (OSLOOP_LOOP_TRACKER_COUNT =? uint32_t (idx + 1));
    (eexists; split; [reflexivity|]); reflexivity.
Qed.

Lemma OSLOOP_TIMER_IRQHandler_registers (s : state) :
  tracker_in_bounds s ->
  exists s',
    OSLOOP_TIMER_IRQHandler s = Some (tt, s') /\
    TIMER_OSLOOP s' =
      {| CR1 := CR1 (TIMER_OSLOOP s);
         DIER := DIER (TIMER_OSLOOP s);
         SR := Z.land (SR (TIMER_OSLOOP s)) (not32 TIM_IT_UPDATE) |}.
Proof.
  intros Hs.
  destruct (OSLOOP_Service_runs s Hs) as (s1 & Hrun & Htim & _).
  unfold OSLOOP_TIMER_IRQHandler, mbind, M_bind. rewrite Hrun.
  unfold modify. eexists. split; [reflexivity|].
  destruct s1 as [tim1 track1 idx1 w1 tr1].
  cbn [TIMER_OSLOOP set_SR set_TIMER_OSLOOP] in *. now rewrite Htim.
Qed.

(** One timer period with the update interrupt enabled. *)
Lemma timer_period_enabled (s : state) :
  tracker_in_bounds s ->
  update_interrupt_enabled s = true ->
  exists s',
    timer_period_elapsed s = Some (tt, s') /\
    trace s' = trace s ++
      calls_to Service (Some (uint32_t (HAL_GetTick (world s))))
        [ADC; IODRV; ANALOG; I2CDRV; HOSTCOMMS; LED] /\
    m_osloopTimeTrackIdx s' =
      (m_osloopTimeTrackIdx s + 1) mod OSLOOP_LOOP_TRACKER_COUNT /\
    tracker_in_bounds s' /\
    CR1 (TIMER_OSLOOP s') = CR1 (TIMER_OSLOOP s) /\
    DIER (TIMER_OSLOOP s') = DIER (TIMER_OSLOOP s) /\
    update_interrupt_enabled s' = true.
Proof.
  intros Hs Hon. unfold timer_period_elapsed. rewrite Hon.
  destruct (OSLOOP_TIMER_IRQHandler_runs s Hs)
    as (s' & Hrun & Hcr1 & Hdier & _ & Htr & Hidx & Hs').
  exists s'. repeat split; try assumption; try apply Hs'.
  unfold update_interrupt_enabled in *. now rewrite Hdier.
Qed.

Lemma timer_periods_enabled (n : nat) (s : state) :
  tracker_in_bounds s ->
  update_interrupt_enabled s = true ->
  exists s' ticks,
    run (replicate n Step_TimerPeriod) s = Some (tt, s') /\
    length ticks = n /\
    trace s' = trace s ++ period_calls ticks /\
    m_osloopTimeTrackIdx s' =
      (m_osloopTimeTrackIdx s + Z.of_nat n) mod OSLOOP_LOOP_TRACKER_COUNT /\
    tracker_in_bounds s' /\
    update_interrupt_enabled s' = true.
Proof.
  revert s. induction n as [|n IH]; intros s Hs Hon.
  - exists s, []. repeat split; try assumption; try apply Hs.
    + cbn. now rewrite app_nil_r.
    + rewrite Z.add_0_r. symmetry. apply Z.mod_small, Hs.
  - destruct (timer_period_enabled s Hs Hon)
      as (s1 & Hstep & Htr1 & Hidx1 & Hs1 & _ & _ & Hon1).
    destruct (IH s1 Hs1 Hon1) as (s' & ticks & Hrun & Hlen & Htr & Hidx & Hs' & Hon').
    exists s', (uint32_t (HAL_GetTick (world s)) :: ticks).
    split.
    { cbn [replicate run run_step]. unfold mbind, M_bind. now rewrite Hstep. }
    split; [cbn; now rewrite Hlen|].
    split.
    { rewrite Htr, Htr1, <- app_assoc. reflexivity. }
    split; [|split; assumption].
    rewrite Hidx, Hidx1.
    rewrite Z.add_mod_idemp_l by (unfold OSLOOP_LOOP_TRACKER_COUNT; lia).
    f_equal. lia.
Qed.

(** Every service routine occurs once per period among the calls of a run
    of periods. *)
Lemma period_calls_count (ticks : list Z) (m : subsystem) :
  count_occ routine_eq_dec (callee <$> period_calls ticks) (Service m)
    = length ticks.
Proof.
  induction ticks as [|t ticks IH]; [reflexivity|].
  change (period_calls (t :: ticks))
    with (calls_to Service (Some t) [ADC; IODRV; ANALOG; I2CDRV; HOSTCOMMS; LED]
          ++ period_calls ticks).
  rewrite fmap_app, count_occ_app, IH.
  destruct m; reflexivity.
Qed.

End SchedulerRuns.

(** X6.  The interrupt handler acknowledges the interrupt after the service
    call: on return the [TIM_IT_UPDATE] bits of [SR] are clear, every other
    bit of [SR] is as before, and [CR1] and [DIER] are untouched, so the
    interrupt stays enabled for the next period. *)
Theorem irq_handler_acknowledges `{P : Platform} (s : state) :
  tracker_in_bounds s ->
  exists s',
    OSLOOP_TIMER_IRQHandler s = Some (tt, s') /\
    Z.land (SR (TIMER_OSLOOP s')) TIM_IT_UPDATE = 0 /\
    (forall n : Z,
       0 <= n < 32 -> Z.testbit TIM_IT_UPDATE n = false ->
       Z.testbit (SR (TIMER_OSLOOP s')) n = Z.testbit (SR (TIMER_OSLOOP s)) n) /\
    CR1 (TIMER_OSLOOP s') = CR1 (TIMER_OSLOOP s) /\
    DIER (TIMER_OSLOOP s') = DIER (TIMER_OSLOOP s) /\
    update_interrupt_enabled s' = update_interrupt_enabled s.
Proof.
  intros Hs.
  destruct (OSLOOP_TIMER_IRQHandler_registers s Hs) as (s' & Hrun & Htim).
  exists s'. split; [exact Hrun|].
  unfold update_interrupt_enabled. rewrite Htim. cbn [CR1 DIER SR].
  split; [apply land_not32_clear|].
  split; [|repeat split].
  intros n Hn Hm. now apply land_not32_other_bits.
Qed.

Lemma irq_handler_acknowledges_witness :
  tracker_in_bounds counting_running /\
  exists s',
    OSLOOP_TIMER_IRQHandler counting_running = Some (tt, s') /\
    Z.land (SR (TIMER_OSLOOP s')) (TIM_IT_UPDATE (Platform := counting_platform)) = 0.
Proof.
  assert (Hb : tracker_in_bounds counting_running)
    by (split; [vm_compute; split; [discriminate | reflexivity] | reflexivity]).
  split; [exact Hb|].
  destruct (irq_handler_acknowledges counting_running Hb) as (s' & Hrun & Hsr & _).
  exists s'. split; [exact Hrun | exact Hsr].
Defined.

(** X7.  A periodic service call writes one slot of [m_osloopTimeTrack], the
    one at the index it found, and leaves every other slot and the size of
    the array as they were.  The value written is the 32-bit difference of
    the timer count read after the service routines and the count read before
    them: the plain difference, or the difference plus 2^32 when the second
    reading is the smaller. *)
Theorem service_records_elapsed_count `{P : Platform} (s : state) :
  tracker_in_bounds s ->
  exists (s' : state) (elapsed : Z),
    OSLOOP_Service s = Some (tt, s') /\
    m_osloopTimeTrack s' !! Z.to_nat (m_osloopTimeTrackIdx s) = Some elapsed /\
    elapsed = (TIMER_OSLOOP_CNT (world s') - TIMER_OSLOOP_CNT (world s)) mod 2 ^ 32 /\
    elapsed =
      (if uint32_t (TIMER_OSLOOP_CNT (world s)) <=? uint32_t (TIMER_OSLOOP_CNT (world s'))
       then uint32_t (TIMER_OSLOOP_CNT (world s')) - uint32_t (TIMER_OSLOOP_CNT (world s))
       else uint32_t (TIMER_OSLOOP_CNT (world s')) - uint32_t (TIMER_OSLOOP_CNT (world s))
            + 2 ^ 32) /\
    0 <= elapsed < 2 ^ 32 /\
    (forall j : nat,
       j <> Z.to_nat (m_osloopTimeTrackIdx s) ->
       m_osloopTimeTrack s' !! j = m_osloopTimeTrack s !! j) /\
    length (m_osloopTimeTrack s') = length (m_osloopTimeTrack s).
Proof.
  intros Hs.
  destruct (OSLOOP_Service_tracker s Hs) as (s' & Hrun & Htrack).
  destruct Hs as [Hidx Hlen]. unfold OSLOOP_LOOP_TRACKER_COUNT in *.
  exists s', (uint32_t (uint32_t (TIMER_OSLOOP_CNT (world s'))
                        - uint32_t (TIMER_OSLOOP_CNT (world s)))).
  split; [exact Hrun|]. rewrite Htrack.
  split; [apply list_lookup_insert_eq; lia|].
  generalize (TIMER_OSLOOP_CNT (world s')) (TIMER_OSLOOP_CNT (world s)).
  intros after before. unfold uint32_t.
  pose proof (Z.mod_pos_bound after (2 ^ 32) ltac:(lia)) as Ha.
  pose proof (Z.mod_pos_bound before (2 ^ 32) ltac:(lia)) as Hb.
  split; [symmetry; apply Zminus_mod|].
  split.
  { destruct (Z.leb_spec (before mod 2 ^ 32) (after mod 2 ^ 32)) as [Hle | Hlt].
    - apply Z.mod_small. lia.
    - symmetry. apply Z.mod_unique_pos with (q := -1); lia. }
  split; [apply Z.mod_pos_bound; lia|].
  split; [|apply length_insert].
  intros j Hj. apply list_lookup_insert_ne. congruence.
Qed.

Lemma service_records_elapsed_count_witness :
  tracker_in_bounds counting_running /\
  exists s',
    OSLOOP_Service counting_running = Some (tt, s') /\
    m_osloopTimeTrack s' !! 0%nat = Some 6.
Proof.
  assert (Hb : tracker_in_bounds counting_running)
    by (split; [vm_compute; split; [discriminate | reflexivity] | reflexivity]).
  split; [exact Hb|].
  destruct (service_records_elapsed_count counting_running Hb)
    as (s' & elapsed & Hrun & Hslot & Hval & _).
  exists s'. split; [exact Hrun|].
  refine (eq_trans Hslot _). rewrite Hval. f_equal.
  vm_compute in Hrun. injection Hrun as <-. reflexivity.
Defined.

(** X8.  With the update interrupt enabled, n timer periods in a row make n
    periodic service calls: the calls are n blocks of the six service
    routines in their order, each block under one tick, so every routine is
    called n times; the tracker index advances by n modulo 16, and is back
    where it was after any multiple of 16 periods. *)
Theorem periods_advance_index `{P : Platform} (n : nat) (s : state) :
  tracker_in_bounds s ->
  update_interrupt_enabled s = true ->
  exists (s' : state) (ticks : list Z),
    run (replicate n Step_TimerPeriod) s = Some (tt, s') /\
    length ticks = n /\
    trace s' = trace s ++ period_calls ticks /\
    (forall m : subsystem,
       count_occ routine_eq_dec (callees_between s s') (Service m) = n) /\
    m_osloopTimeTrackIdx s' =
      (m_osloopTimeTrackIdx s + Z.of_nat n) mod OSLOOP_LOOP_TRACKER_COUNT /\
    (Z.of_nat n mod OSLOOP_LOOP_TRACKER_COUNT = 0 ->
     m_osloopTimeTrackIdx s' = m_osloopTimeTrackIdx s) /\
    update_interrupt_enabled s' = true.
Proof.
  intros Hs Hon.
  destruct (timer_periods_enabled n s Hs Hon)
    as (s' & ticks & Hrun & Hlen & Htr & Hidx & _ & Hon').
  exists s', ticks.
  split; [exact Hrun|]. split; [exact Hlen|]. split; [exact Htr|].
  split.
  { intros m. rewrite (callees_between_app _ _ _ Htr), <- Hlen.
    apply period_calls_count. }
  split; [exact Hidx|]. split; [|exact Hon'].
  intros Hmul. rewrite Hidx.
  destruct Hs as [Hb _]. unfold OSLOOP_LOOP_TRACKER_COUNT in *.
  rewrite Z.add_mod, Hmul, Z.add_0_r, Z.mod_mod by lia.
  apply Z.mod_small, Hb.
Qed.

Lemma periods_advance_index_witness :
  tracker_in_bounds counting_running /\
  update_interrupt_enabled counting_running = true /\
  exists s',
    run (replicate 18 Step_TimerPeriod) counting_running = Some (tt, s') /\
    m_osloopTimeTrackIdx s' = 2.
Proof.
  assert (Hb : tracker_in_bounds counting_running)
    by (split; [vm_compute; split; [discriminate | reflexivity] | reflexivity]).
  split; [exact Hb|]. split; [reflexivity|].
  destruct (periods_advance_index 18 counting_running Hb eq_refl)
    as (s' & ticks & Hrun & _ & _ & _ & Hidx & _).
  exists s'. split; [exact Hrun | exact Hidx].
Defined.

(** X9.  The atomic-access gate touches nothing but the [TIM_IT_UPDATE] bits
    of [DIER]: it calls no routine, and leaves [CR1], [SR], every other bit
    of [DIER], the tracker and the rest of the machine as they were. *)
Theorem atomic_access_frame `{P : Platform} (access : bool) (s : state) :
  exists s',
    OSLOOP_AtomicAccess access s = Some (tt, s') /\
    trace s' = trace s /\
    world s' = world s /\
    CR1 (TIMER_OSLOOP s') = CR1 (TIMER_OSLOOP s) /\
    SR (TIMER_OSLOOP s') = SR (TIMER_OSLOOP s) /\
    m_osloopTimeTrack s' = m_osloopTimeTrack s /\
    m_osloopTimeTrackIdx s' = m_osloopTimeTrackIdx s /\
    (forall n : Z,
       0 <= n < 32 -> Z.testbit TIM_IT_UPDATE n = false ->
       Z.testbit (DIER (TIMER_OSLOOP s')) n = Z.testbit (DIER (TIMER_OSLOOP s)) n).
Proof.
  destruct (OSLOOP_AtomicAccess_runs access s)
    as (s' & Hrun & Htim & Htr & Hw & Ht & Hi).
  exists s'. rewrite Htim. cbn [CR1 DIER SR].
  repeat split; try assumption.
  intros n Hn Hm. destruct access.
  - now apply land_not32_other_bits.
  - now apply lor_other_bits.
Qed.

(** X10.  The gate keeps no count: of two calls in a row only the second
    matters.  In particular an acquire followed by a release leaves the
    update interrupt enabled even if it was disabled before the acquire, and
    an inner release ends an outer acquire. *)
Theorem atomic_access_last_call_wins `{P : Platform} (a b : bool) (s : state) :
  0 <= DIER (TIMER_OSLOOP s) < 2 ^ 32 ->
  (OSLOOP_AtomicAccess a;; OSLOOP_AtomicAccess b) s = OSLOOP_AtomicAccess b s.
Proof.
  destruct s as [[cr1 dier sr] track idx w tr]. cbn [TIMER_OSLOOP DIER].
  intros Hd.
  destruct a, b; run_c.
  - now rewrite land_not32_idem.
  - now rewrite lor_land_not32.
  - now rewrite land_not32_lor.
  - now rewrite lor_idem.
Qed.

Lemma atomic_access_last_call_wins_witness :
  0 <= DIER (TIMER_OSLOOP counting_boot) < 2 ^ 32 /\
  update_interrupt_enabled counting_boot = false /\
  exists s',
    (OSLOOP_AtomicAccess true;; OSLOOP_AtomicAccess false) counting_boot
      = Some (tt, s') /\
    update_interrupt_enabled s' = true.
Proof.
  assert (Hd : 0 <= DIER (TIMER_OSLOOP counting_boot) < 2 ^ 32)
    by (vm_compute; split; [discriminate | reflexivity]).
  split; [exact Hd|]. split; [reflexivity|].
  rewrite (atomic_access_last_call_wins true false counting_boot Hd).
  eexists. split; reflexivity.
Defined.

(** X11.  Shutdown masks the update interrupt but does not stop the timer:
    [CR1], with its counter enable, and [SR] are untouched.  On a machine set
    up as init leaves it (32-bit [DIER] with the update interrupt enabled,
    counter enabled), a shutdown followed by a restart brings the timer
    registers back to what they were, having called the five shutdown
    routines and then the five init routines. *)
Theorem shutdown_restart_round_trip `{P : Platform} (s : state) :
  0 <= DIER (TIMER_OSLOOP s) < 2 ^ 32 ->
  Z.land (DIER (TIMER_OSLOOP s)) TIM_IT_UPDATE = TIM_IT_UPDATE ->
  Z.land (CR1 (TIMER_OSLOOP s)) TIM_CR1_CEN = TIM_CR1_CEN ->
  exists s1 s2,
    OSLOOP_Shutdown s = Some (tt, s1) /\
    OSLOOP_Restart s1 = Some (tt, s2) /\
    CR1 (TIMER_OSLOOP s1) = CR1 (TIMER_OSLOOP s) /\
    SR (TIMER_OSLOOP s1) = SR (TIMER_OSLOOP s) /\
    TIMER_OSLOOP s2 = TIMER_OSLOOP s /\
    m_osloopTimeTrack s2 = m_osloopTimeTrack s /\
    m_osloopTimeTrackIdx s2 = m_osloopTimeTrackIdx s /\
    callees_between s s2 =
      (Shutdown <$> [ADC; IODRV; ANALOG; I2CDRV; LED]) ++
      (Init <$> [ADC; IODRV; ANALOG; I2CDRV; LED]).
Proof.
  intros Hd Hon Hcen.
  destruct (OSLOOP_Shutdown_runs s) as (s1 & Hrun1 & Htim1 & Htr1 & _ & Ht1 & Hi1).
  destruct (OSLOOP_Restart_runs s1) as (s2 & Hrun2 & Htim2 & Htr2 & _ & Ht2 & Hi2).
  exists s1, s2.
  split; [exact Hrun1|]. split; [exact Hrun2|].
  rewrite Htim2, Htim1. cbn [CR1 DIER SR].
  split; [reflexivity|]. split; [reflexivity|].
  split.
  { rewrite lor_land_not32, (lor_absorb _ _ Hon), (lor_absorb _ _ Hcen) by exact Hd.
    now destruct (TIMER_OSLOOP s). }
  split; [congruence|]. split; [congruence|].
  rewrite (callees_between_app s s2
             (calls_to Shutdown None [ADC; IODRV; ANALOG; I2CDRV; LED] ++
              calls_to Init (Some (uint32_t (HAL_GetTick (world s1))))
                [ADC; IODRV; ANALOG; I2CDRV; LED])).
  - reflexivity.
  - rewrite Htr2, Htr1, <- app_assoc. reflexivity.
Qed.

Lemma shutdown_restart_round_trip_witness :
  exists s1 s2,
    OSLOOP_Shutdown counting_running = Some (tt, s1) /\
    OSLOOP_Restart s1 = Some (tt, s2) /\
    update_interrupt_enabled s1 = false /\
    TIMER_OSLOOP s2 = TIMER_OSLOOP counting_running.
Proof.
  destruct (shutdown_restart_round_trip counting_running)
    as (s1 & s2 & Hrun1 & Hrun2 & _ & _ & Htim & _);
    [vm_compute; split; [discriminate | reflexivity] | reflexivity | reflexivity |].
  exists s1, s2. split; [exact Hrun1|]. split; [exact Hrun2|].
  split; [|exact Htim].
  vm_compute in Hrun1. injection Hrun1 as <-. reflexivity.
Defined.

(** X12.  Init and restart both arm the loop: whatever the update-interrupt
    enable was before (cleared by a shutdown or by the gate, say), the first
    timer period after either of them dispatches the periodic service call
    with its six service routines. *)
Theorem init_and_restart_arm_the_loop `{P : Platform} (s : state) :
  tracker_in_bounds s ->
  TIM_IT_UPDATE <> 0 ->
  (exists s1 s2,
     OSLOOP_Init s = Some (tt, s1) /\
     update_interrupt_enabled s1 = true /\
     timer_period_elapsed s1 = Some (tt, s2) /\
     callees_between s1 s2 =
       Service <$> [ADC; IODRV; ANALOG; I2CDRV; HOSTCOMMS; LED]) /\
  (exists s1 s2,
     OSLOOP_Restart s = Some (tt, s1) /\
     update_interrupt_enabled s1 = true /\
     timer_period_elapsed s1 = Some (tt, s2) /\
     callees_between s1 s2 =
       Service <$> [ADC; IODRV; ANALOG; I2CDRV; HOSTCOMMS; LED]).
Proof.
  intros Hs Hmask.
  assert (Harmed : forall s1 : state,
            TIMER_OSLOOP s1 =
              {| CR1 := Z.lor (CR1 (TIMER_OSLOOP s)) TIM_CR1_CEN;
                 DIER := Z.lor (DIER (TIMER_OSLOOP s)) TIM_IT_UPDATE;
                 SR := SR (TIMER_OSLOOP s) |} ->
            m_osloopTimeTrack s1 = m_osloopTimeTrack s ->
            m_osloopTimeTrackIdx s1 = m_osloopTimeTrackIdx s ->
            update_interrupt_enabled s1 = true /\
            exists s2,
              timer_period_elapsed s1 = Some (tt, s2) /\
              callees_between s1 s2 =
                Service <$> [ADC; IODRV; ANALOG; I2CDRV; HOSTCOMMS; LED]).
  { intros s1 Htim Ht Hi.
    assert (Hon : update_interrupt_enabled s1 = true).
    { unfold update_interrupt_enabled. rewrite Htim. cbn [DIER].
      rewrite lor_land_set. now apply negb_true_iff, Z.eqb_neq. }
    split; [exact Hon|].
    assert (Hs1 : tracker_in_bounds s1)
      by (unfold tracker_in_bounds in *; now rewrite Ht, Hi).
    destruct (timer_period_enabled s1 Hs1 Hon) as (s2 & Hrun & Htr & _).
    exists s2. split; [exact Hrun|].
    now rewrite (callees_between_app _ _ _ Htr). }
  split.
  - destruct (OSLOOP_Init_runs s) as (s1 & Hrun & Htim & _ & _ & Ht & Hi).
    destruct (Harmed s1 Htim Ht Hi) as (Hon & s2 & Hrun2 & Hcalls).
    now exists s1, s2.
  - destruct (OSLOOP_Restart_runs s) as (s1 & Hrun & Htim & _ & _ & Ht & Hi).
    destruct (Harmed s1 Htim Ht Hi) as (Hon & s2 & Hrun2 & Hcalls).
    now exists s1, s2.
Qed.

Lemma init_and_restart_arm_the_loop_witness :
  tracker_in_bounds counting_boot /\
  update_interrupt_enabled counting_boot = false /\
  exists s1 s2,
    OSLOOP_Init counting_boot = Some (tt, s1) /\
    timer_period_elapsed s1 = Some (tt, s2) /\
    callees_between s1 s2 =
      Service <$> [ADC; IODRV; ANALOG; I2CDRV; HOSTCOMMS; LED].
Proof.
  assert (Hb : tracker_in_bounds counting_boot)
    by (split; [vm_compute; split; [discriminate | reflexivity] | reflexivity]).
  split; [exact Hb|]. split; [reflexivity|].
  destruct (init_and_restart_arm_the_loop counting_boot Hb)
    as [(s1 & s2 & Hrun & _ & Hrun2 & Hcalls) _]; [discriminate|].
  exists s1, s2. split; [exact Hrun|]. split; [exact Hrun2 | exact Hcalls].
Defined.

(** X13.  Only the periodic service call writes the loop-time tracker: init,
    shutdown, restart, the gate and foreground work leave the array and its
    index as they were, so the recorded loop times survive a stop and a
    wake. *)
Theorem tracker_written_by_service_only `{P : Platform} (st : step) (s : state) :
  st <> Step_TimerPeriod ->
  exists s',
    run_step st s = Some (tt, s') /\
    m_osloopTimeTrack s' = m_osloopTimeTrack s /\
    m_osloopTimeTrackIdx s' = m_osloopTimeTrackIdx s.
Proof.
  intros Hst. destruct st as [ | | | access | | f]; cbn [run_step].
  - destruct (OSLOOP_Init_runs s) as (s' & Hrun & _ & _ & _ & Ht & Hi).
    now exists s'.
  - destruct (OSLOOP_Shutdown_runs s) as (s' & Hrun & _ & _ & _ & Ht & Hi).
    now exists s'.
  - destruct (OSLOOP_Restart_runs s) as (s' & Hrun & _ & _ & _ & Ht & Hi).
    now exists s'.
  - destruct (OSLOOP_AtomicAccess_runs access s)
      as (s' & Hrun & _ & _ & _ & Ht & Hi).
    now exists s'.
  - contradiction.
  - eexists. split; [reflexivity|]. split; reflexivity.
Qed.

Lemma tracker_written_by_service_only_witness :
  Step_Shutdown (P := counting_platform) <> Step_TimerPeriod /\
  exists s',
    run_step Step_Shutdown counting_running = Some (tt, s') /\
    m_osloopTimeTrackIdx s' = m_osloopTimeTrackIdx counting_running.
Proof.
  assert (Hne : Step_Shutdown (P := counting_platform) <> Step_TimerPeriod)
    by discriminate.
  split; [exact Hne|].
  destruct (tracker_written_by_service_only Step_Shutdown counting_running Hne)
    as (s' & Hrun & _ & Hi).
  exists s'. split; [exact Hrun | exact Hi].
Defined.
